(** * Warbler: the request handlers of [app.py], embedded and verified

    The Flask handlers are embedded as computations in a small state and
    exception monad over a [World]: the committed database, the ORM unit of
    work ([db.session]), the signed cookie session, the flashed messages and
    the request global [g.user].  A handler either returns a response, returns
    nothing (Python's [None]), or raises. *)

From stdpp Require Import base list strings sorting pretty.

Open Scope string_scope.
Open Scope Z_scope.

(** ** Data model *)

Module User.
Record t := mk {
  id : Z;
  username : string;
  email : string;
  password : string;
  image_url : string;
  header_image_url : string;
  bio : string;
  location : string
}.
#[global] Instance eq_dec : EqDecision t.
Proof. solve_decision. Defined.
End User.

Module Message.
Record t := mk {
  id : Z;
  text : string;
  timestamp : Z;
  user_id : Z
}.
#[global] Instance eq_dec : EqDecision t.
Proof. solve_decision. Defined.
End Message.

(** Modelled from the spec: models.py is not part of the sources.  The data
    model has four tables, kept here as the lists of their rows in insertion
    order.  A [follows] row is [(user_following_id, user_being_followed_id)]
    and a [likes] row is [(user_id, message_id)]; the ORM relationships
    [following] and [liked_messages] are the lists the handlers append to
    and remove from, read through these tables. *)
Record DB := mkDB {
  users : list User.t;
  messages : list Message.t;
  follows : list (Z * Z);
  likes : list (Z * Z)
}.

#[global] Instance DB_eq_dec : EqDecision DB.
Proof. solve_decision. Defined.

Definition empty_db : DB := mkDB [] [] [] [].

(** [db] is what has been committed; [db_session] is the unit of work that
    the handler reads and writes until [db.session.commit()].
    [session_curr_user] is [session[CURR_USER_KEY]] when the key is present. *)
Record World := mkWorld {
  db : DB;
  db_session : DB;
  session_curr_user : option Z;
  session_flashes : list (string * string);
  g_user : option User.t
}.

Inductive Exn :=
| NotFound              (* abort(404) raised by get_or_404 *)
| AttributeError        (* attribute access on None *)
| ValueError            (* list.remove(x): x not in list *)
| UnmappedInstanceError (* db.session.delete(None) *)
| IntegrityError.       (* uniqueness violation at commit *)

#[global] Instance Exn_eq_dec : EqDecision Exn.
Proof. solve_decision. Defined.

Inductive outcome (A : Type) :=
| Ret (a : A)
| Raise (e : Exn).
Arguments Ret {A} a.
Arguments Raise {A} e.

Definition M (A : Type) : Type := World → outcome A * World.

#[global] Instance M_ret : MRet M := λ A a w, (Ret a, w).
#[global] Instance M_bind : MBind M := λ A B f m w,
  match m w with
  | (Ret a, w') => f a w'
  | (Raise e, w') => (Raise e, w')
  end.

Definition raise {A} (e : Exn) : M A := λ w, (Raise e, w).
Definition get_world : M World := λ w, (Ret w, w).
Definition modify (f : World → World) : M unit := λ w, (Ret tt, f w).

(** [try: ... except e: ...] *)
Definition try_except {A} (m : M A) (e : Exn) (h : M A) : M A := λ w,
  match m w with
  | (Raise e', w') => if decide (e' = e) then h w' else (Raise e', w')
  | r => r
  end.

(** ** Requests, forms and responses *)

Inductive Method := GET | POST.

(** Modelled from the spec: forms.py is not part of the sources.  The form
    layer does "declarative field validation" and every form carries the
    anti-forgery token, so a request records whether its token validates
    ([csrf_valid]) and whether the submitted fields pass the validators of
    the form the handler builds ([fields_valid]), next to the field data. *)
Record Request := mkRequest {
  method : Method;
  csrf_valid : bool;
  fields_valid : bool;
  form_username : string;
  form_password : string;
  form_email : string;
  form_image_url : string;
  form_header_image_url : string;
  form_bio : string;
  form_text : string;
  referrer : option string;
  now : Z
}.

Inductive Form :=
| UserAddForm | LoginForm | MessageForm | UserUpdateForm | ForValidationForm.

Definition is_submitted (req : Request) : bool :=
  match method req with POST => true | GET => false end.

(** Modelled from the spec: [form.validate_on_submit()].
    [ForValidationForm] has no field of its own: it only checks the token. *)
Definition validate_on_submit (f : Form) (req : Request) : bool :=
  match f with
  | ForValidationForm => is_submitted req && csrf_valid req
  | _ => is_submitted req && csrf_valid req && fields_valid req
  end.
Arguments validate_on_submit : simpl never.

(** What a template is rendered with. *)
Inductive Context :=
| NoContext
| WithForm (form : Form)
| WithUser (user : User.t)
| WithUserLikes (user : User.t) (likes : list Z)
| WithMessageLikes (message : option Message.t) (likes : list Z)
| WithMessages (messages : list Message.t) (liked_msg_ids : list Z).

Inductive Response :=
| Redirect (location : string)
| Render (template : string) (context : Context).

(** ** The ORM, as far as the handlers use it *)

Definition user_get (d : DB) (k : Z) : option User.t :=
  List.find (λ u, User.id u =? k) (users d).

Definition message_get (d : DB) (k : Z) : option Message.t :=
  List.find (λ m, Message.id m =? k) (messages d).

(** [user.following]: the users at the far end of this user's follow rows. *)
Definition following (d : DB) (u : User.t) : list User.t :=
  omap (λ e : Z * Z, if e.1 =? User.id u then user_get d e.2 else None) (follows d).

(** [user.liked_messages]: the messages at the far end of the like rows. *)
Definition liked_messages (d : DB) (u : User.t) : list Message.t :=
  omap (λ e : Z * Z, if e.1 =? User.id u then message_get d e.2 else None) (likes d).

(** [list.remove(x)] on a list of edge rows: drops the first equal row. *)
Fixpoint remove_first (e : Z * Z) (l : list (Z * Z)) : list (Z * Z) :=
  match l with
  | [] => []
  | x :: l' => if decide (x = e) then l' else x :: remove_first e l'
  end.

Definition next_id (ids : list Z) : Z := 1 + foldr Z.max 0 ids.

(** [User.query.get(id)], [Message.query.get(id)]: [None] when missing. *)
Definition User_query_get (k : Z) : M (option User.t) :=
  λ w, (Ret (user_get (db_session w) k), w).

Definition Message_query_get (k : Z) : M (option Message.t) :=
  λ w, (Ret (message_get (db_session w) k), w).

(** [get_or_404]: aborts the request with a not-found response. *)
Definition User_query_get_or_404 (k : Z) : M User.t :=
  o ← User_query_get k;
  match o with Some u => mret u | None => raise NotFound end.

Definition Message_query_get_or_404 (k : Z) : M Message.t :=
  o ← Message_query_get k;
  match o with Some m => mret m | None => raise NotFound end.

(** Field updates of the world. *)
Definition set_db_session (d : DB) (w : World) : World :=
  mkWorld (db w) d (session_curr_user w) (session_flashes w) (g_user w).

Definition set_curr_user (k : option Z) (w : World) : World :=
  mkWorld (db w) (db_session w) k (session_flashes w) (g_user w).

Definition add_flash (message category : string) (w : World) : World :=
  mkWorld (db w) (db_session w) (session_curr_user w)
          (session_flashes w ++ [(message, category)]) (g_user w).

Definition set_g_user (g : option User.t) (w : World) : World :=
  mkWorld (db w) (db_session w) (session_curr_user w) (session_flashes w) g.

Definition committed (w : World) : World :=
  mkWorld (db_session w) (db_session w) (session_curr_user w)
          (session_flashes w) (g_user w).

Definition update_db_session (f : DB → DB) : M unit :=
  modify (λ w, set_db_session (f (db_session w)) w).

(** [flash(message, category)] *)
Definition flash (message category : string) : M unit :=
  modify (add_flash message category).

(** Modelled from the spec: "username and email unique across all users".
    A pending user row breaks uniqueness when it is new or changed and some
    other row has its username or its email. *)
Definition unique_violation (committed pending : DB) : bool :=
  existsb (λ u,
    negb (bool_decide (u ∈ users committed)) &&
    existsb (λ v, negb (User.id u =? User.id v) &&
                  (String.eqb (User.username u) (User.username v) ||
                   String.eqb (User.email u) (User.email v)))
            (users pending))
  (users pending).

(** [db.session.commit()]: the unit of work becomes the committed database,
    unless a uniqueness constraint of the users table is violated. *)
Definition db_session_commit : M unit := λ w,
  if unique_violation (db w) (db_session w)
  then (Raise IntegrityError, w)
  else (Ret tt, committed w).

(** [user.following.append(followed_user)]: at commit the unit of work
    inserts a follow row for a user who is new to the collection; for a user
    who is in the collection already it inserts no row. *)
Definition following_append (u followed_user : User.t) : M unit :=
  update_db_session (λ d,
    if existsb (λ x, User.id x =? User.id followed_user) (following d u)
    then d
    else mkDB (users d) (messages d)
              (follows d ++ [(User.id u, User.id followed_user)]) (likes d)).

(** [user.following.remove(followed_user)]: raises when the argument is not
    in the list, which is always so for [None]. *)
Definition following_remove (u : User.t) (followed_user : option User.t) : M unit :=
  w ← get_world;
  match followed_user with
  | None => raise ValueError
  | Some f =>
      if existsb (λ x, User.id x =? User.id f) (following (db_session w) u)
      then update_db_session (λ d, mkDB (users d) (messages d)
             (remove_first (User.id u, User.id f) (follows d)) (likes d))
      else raise ValueError
  end.

Definition liked_messages_append (u : User.t) (msg : Message.t) : M unit :=
  update_db_session (λ d, mkDB (users d) (messages d) (follows d)
    (likes d ++ [(User.id u, Message.id msg)])).

Definition liked_messages_remove (u : User.t) (msg : Message.t) : M unit :=
  w ← get_world;
  if existsb (λ x, Message.id x =? Message.id msg) (liked_messages (db_session w) u)
  then update_db_session (λ d, mkDB (users d) (messages d) (follows d)
         (remove_first (User.id u, Message.id msg) (likes d)))
  else raise ValueError.

(** [db.session.delete(msg)]: the message row goes, and with it the like rows
    that point to it (the spec's "deletion cascades to Likes").  Deleting
    [None] is refused by the ORM. *)
Definition db_session_delete_message (msg : option Message.t) : M unit :=
  match msg with
  | None => raise UnmappedInstanceError
  | Some m =>
      update_db_session (λ d, mkDB (users d)
        (filter (λ x, Message.id x ≠ Message.id m) (messages d))
        (follows d)
        (filter (λ e : Z * Z, e.2 ≠ Message.id m) (likes d)))
  end.

(** Modelled from the spec: models.py is not part of the sources.  Deleting a
    user cascades to the user's messages, likes and follow rows, in both
    directions, and to the likes of the deleted messages. *)
Definition db_session_delete_user (u : User.t) : M unit :=
  update_db_session (λ d,
    let gone := Message.id <$> filter (λ m, Message.user_id m = User.id u) (messages d) in
    mkDB (filter (λ x, User.id x ≠ User.id u) (users d))
         (filter (λ m, Message.user_id m ≠ User.id u) (messages d))
         (filter (λ e : Z * Z, e.1 ≠ User.id u ∧ e.2 ≠ User.id u) (follows d))
         (filter (λ e : Z * Z, e.1 ≠ User.id u ∧ e.2 ∉ gone) (likes d))).

(** [g.user.<attribute>]: fails on [None]. *)
Definition g_user_attr : M User.t := λ w,
  match g_user w with
  | Some u => (Ret u, w)
  | None => (Raise AttributeError, w)
  end.

Definition get_g_user : M (option User.t) := λ w, (Ret (g_user w), w).

(** [x or default] on strings: the empty string is falsy. *)
Definition or_default (x default : string) : string :=
  if decide (x = "") then default else x.

Definition user_url (u : User.t) : string := "/users/" +:+ pretty (User.id u).

(** ** The handlers of app.py *)

(** [add_user_to_g], run before every request. *)
Definition add_user_to_g : M unit := λ w,
  match session_curr_user w with
  | Some k => (Ret tt, set_g_user (user_get (db_session w) k) w)
  | None => (Ret tt, set_g_user None w)
  end.

Definition do_login (user : User.t) : M unit :=
  modify (set_curr_user (Some (User.id user))).

Definition do_logout : M unit := modify (set_curr_user None).

Definition unauthorized : M (option Response) :=
  flash "Access unauthorized." "danger";;
  mret (Some (Redirect "/")).

Definition logout (req : Request) : M (option Response) :=
  if validate_on_submit ForValidationForm req then
    do_logout;;
    flash "Successfully logged out" "success";;
    mret (Some (Redirect "/login"))
  else mret None.

Definition users_show (user_id : Z) : M (option Response) :=
  user ← User_query_get_or_404 user_id;
  gu ← g_user_attr;
  w ← get_world;
  let liked_msg_ids := Message.id <$> liked_messages (db_session w) gu in
  mret (Some (Render "users/show.html" (WithUserLikes user liked_msg_ids))).

Definition show_following (user_id : Z) : M (option Response) :=
  g ← get_g_user;
  match g with
  | None => unauthorized
  | Some _ =>
      user ← User_query_get_or_404 user_id;
      mret (Some (Render "users/following.html" (WithUser user)))
  end.

Definition users_followers (user_id : Z) : M (option Response) :=
  g ← get_g_user;
  match g with
  | None => unauthorized
  | Some _ =>
      user ← User_query_get_or_404 user_id;
      mret (Some (Render "users/followers.html" (WithUser user)))
  end.

Definition add_follow (follow_id : Z) (req : Request) : M (option Response) :=
  g ← get_g_user;
  match g with
  | None => unauthorized
  | Some u =>
      if validate_on_submit ForValidationForm req then
        followed_user ← User_query_get_or_404 follow_id;
        following_append u followed_user;;
        db_session_commit;;
        mret (Some (Redirect (user_url u +:+ "/following")))
      else mret None
  end.

Definition stop_following (follow_id : Z) (req : Request) : M (option Response) :=
  g ← get_g_user;
  match g with
  | None => unauthorized
  | Some u =>
      if validate_on_submit ForValidationForm req then
        followed_user ← User_query_get follow_id;
        following_remove u followed_user;;
        db_session_commit;;
        mret (Some (Redirect (user_url u +:+ "/following")))
      else mret None
  end.

Definition delete_user (req : Request) : M (option Response) :=
  g ← get_g_user;
  match g with
  | None => unauthorized
  | Some u =>
      if validate_on_submit ForValidationForm req then
        do_logout;;
        db_session_delete_user u;;
        db_session_commit;;
        mret (Some (Redirect "/signup"))
      else mret None
  end.

(** [g.user.messages.append(Message(text=...))]; the timestamp column
    defaults to the time of the request. *)
Definition messages_append (u : User.t) (text : string) (timestamp : Z) : M unit :=
  update_db_session (λ d,
    mkDB (users d)
         (messages d ++ [Message.mk (next_id (Message.id <$> messages d)) text
                                    timestamp (User.id u)])
         (follows d) (likes d)).

Definition messages_add (req : Request) : M (option Response) :=
  g ← get_g_user;
  match g with
  | None => unauthorized
  | Some u =>
      if validate_on_submit MessageForm req then
        messages_append u (form_text req) (now req);;
        db_session_commit;;
        mret (Some (Redirect (user_url u)))
      else mret (Some (Render "messages/new.html" (WithForm MessageForm)))
  end.

Definition messages_show (message_id : Z) : M (option Response) :=
  msg ← Message_query_get message_id;
  gu ← g_user_attr;
  w ← get_world;
  let liked_msg_ids := Message.id <$> liked_messages (db_session w) gu in
  mret (Some (Render "messages/show.html" (WithMessageLikes msg liked_msg_ids))).

Definition messages_destroy (message_id : Z) (req : Request) : M (option Response) :=
  g ← get_g_user;
  match g with
  | None => unauthorized
  | Some u =>
      if validate_on_submit ForValidationForm req then
        msg ← Message_query_get message_id;
        db_session_delete_message msg;;
        db_session_commit;;
        mret (Some (Redirect (user_url u)))
      else
        flash "Action unauthorized!" "danger";;
        mret (Some (Redirect "/"))
  end.

Definition _handle_like_unlike (message_id user_id : Z) : M (option Response) :=
  gu ← g_user_attr;
  w ← get_world;
  let user_likes_ids := Message.id <$> liked_messages (db_session w) gu in
  let is_liked := bool_decide (message_id ∈ user_likes_ids) in
  msg ← Message_query_get_or_404 message_id;
  if Message.user_id msg =? User.id gu then
    flash "Sorry, you cannot like your own message!" "danger";;
    mret (Some (Redirect (user_url gu)))
  else
    (if is_liked then
       liked_messages_remove gu msg;;
       flash "message unliked!" "danger"
     else
       liked_messages_append gu msg;;
       flash "message liked!" "success");;
    db_session_commit;;
    mret None.

Definition handle_message_like_unlike (message_id : Z) (req : Request)
  : M (option Response) :=
  g ← get_g_user;
  match g with
  | None => unauthorized
  | Some u =>
      if validate_on_submit ForValidationForm req then
        _handle_like_unlike message_id (User.id u);;
        match referrer req with
        | Some r => if decide (r = "") then mret (Some (Redirect "/"))
                    else mret (Some (Redirect r))
        | None => mret (Some (Redirect "/"))
        end
      else mret None
  end.

(** Where the like route sends the browser once the helper is done. *)
Definition referrer_or_home (req : Request) : string :=
  match referrer req with
  | Some r => if decide (r = "") then "/" else r
  | None => "/"
  end.

Definition show_user_likes (user_id : Z) : M (option Response) :=
  g ← get_g_user;
  match g with
  | None => unauthorized
  | Some _ => mret (Some (Render "users/likes.html" NoContext))
  end.

(** [order_by(Message.timestamp.desc())] *)
Definition newer_first (m1 m2 : Message.t) : Prop :=
  Message.timestamp m2 ≤ Message.timestamp m1.

#[global] Instance newer_first_dec : RelDecision newer_first.
Proof. intros m1 m2. unfold newer_first. apply _. Defined.

Definition homepage_query (d : DB) (u : User.t) : list Message.t :=
  let following_ids := User.id <$> following d u in
  take 100
    (merge_sort newer_first
       (filter (λ m, Message.user_id m ∈ following_ids ∨
                     Message.user_id m = User.id u) (messages d))).

Definition homepage : M (option Response) :=
  g ← get_g_user;
  match g with
  | Some u =>
      w ← get_world;
      let messages := homepage_query (db_session w) u in
      let liked_msg_ids := remove_dups (Message.id <$> liked_messages (db_session w) u) in
      mret (Some (Render "home.html" (WithMessages messages liked_msg_ids)))
  | None => mret (Some (Render "home-anon.html" NoContext))
  end.

(** ** Handlers that go through the password hashing of models.py *)

Section WithModels.
(** models.py is not part of the sources: its password hashing and the
    column defaults of the two image urls are taken as given. *)
Variable generate_password_hash : string → string.
Variable check_password_hash : string → string → bool.
Variable image_url_default : string.
Variable header_image_url_default : string.

(** Modelled from the spec: [User.signup] "creates User with hashed
    password" and adds it to the unit of work; the uniqueness of username
    and email is checked by the database when the handler commits. *)
Definition User_signup (username password email image_url : string) : M User.t :=
  w ← get_world;
  let user := User.mk (next_id (User.id <$> users (db_session w)))
                      username email (generate_password_hash password)
                      image_url header_image_url_default "" "" in
  update_db_session (λ d, mkDB (users d ++ [user]) (messages d) (follows d) (likes d));;
  mret user.

(** Modelled from the spec: [User.authenticate] "returns the User if
    credentials match, else a failure indicator". *)
Definition User_authenticate (d : DB) (username password : string) : option User.t :=
  match List.find (λ u, String.eqb (User.username u) username) (users d) with
  | Some u => if check_password_hash (User.password u) password then Some u else None
  | None => None
  end.

Definition signup (req : Request) : M (option Response) :=
  if validate_on_submit UserAddForm req then
    r ← try_except
          (user ← User_signup (form_username req) (form_password req) (form_email req)
                    (or_default (form_image_url req) image_url_default);
           db_session_commit;;
           mret (inl user))
          IntegrityError
          (flash "Username already taken" "danger";;
           mret (inr (Render "users/signup.html" (WithForm UserAddForm))));
    match r with
    | inl user => do_login user;; mret (Some (Redirect "/"))
    | inr response => mret (Some response)
    end
  else mret (Some (Render "users/signup.html" (WithForm UserAddForm))).

Definition login (req : Request) : M (option Response) :=
  w ← get_world;
  if validate_on_submit LoginForm req then
    match User_authenticate (db_session w) (form_username req) (form_password req) with
    | Some user =>
        do_login user;;
        flash ("Hello, " +:+ User.username user +:+ "!") "success";;
        mret (Some (Redirect "/"))
    | None =>
        flash "Invalid credentials." "danger";;
        mret (Some (Render "users/login.html" (WithForm LoginForm)))
    end
  else mret (Some (Render "users/login.html" (WithForm LoginForm))).

(** The assignments to [g.user.<column>]: the row of the unit of work and
    the object held in [g] are the same object. *)
Definition g_user_assign (u' : User.t) : M unit :=
  update_db_session (λ d,
    mkDB ((λ x, if User.id x =? User.id u' then u' else x) <$> users d)
         (messages d) (follows d) (likes d));;
  modify (set_g_user (Some u')).

Definition profile (req : Request) : M (option Response) :=
  g ← get_g_user;
  match g with
  | None => unauthorized
  | Some u =>
      w ← get_world;
      let valid := validate_on_submit UserUpdateForm req in
      let authenticated :=
        bool_decide (is_Some (User_authenticate (db_session w) (User.username u)
                                                (form_password req))) in
      (if valid && negb authenticated
       then flash "Unauthorized!" "danger" else mret tt);;
      if valid && authenticated then
        g_user_assign (User.mk (User.id u) (form_username req) (form_email req)
                               (User.password u)
                               (or_default (form_image_url req) image_url_default)
                               (or_default (form_header_image_url req)
                                           header_image_url_default)
                               (form_bio req) (User.location u));;
        db_session_commit;;
        mret (Some (Redirect (user_url u)))
      else mret (Some (Render "users/edit.html" (WithForm UserUpdateForm)))
  end.

(** The routes that write: the eight of the external interface. *)
Inductive MutatingRoute :=
| POST_logout
| POST_users_follow (follow_id : Z)
| POST_users_stop_following (follow_id : Z)
| POST_users_profile
| POST_users_delete
| POST_messages_new
| POST_messages_delete (message_id : Z)
| POST_messages_like (message_id : Z).

Definition view (r : MutatingRoute) (req : Request) : M (option Response) :=
  match r with
  | POST_logout => logout req
  | POST_users_follow follow_id => add_follow follow_id req
  | POST_users_stop_following follow_id => stop_following follow_id req
  | POST_users_profile => profile req
  | POST_users_delete => delete_user req
  | POST_messages_new => messages_add req
  | POST_messages_delete message_id => messages_destroy message_id req
  | POST_messages_like message_id => handle_message_like_unlike message_id req
  end.
End WithModels.

(** Flask runs the [before_request] function, then the view. *)
Definition handle_request {A} (view : M A) : M A := add_user_to_g;; view.

(** Between requests nothing is pending: the unit of work a request starts
    with is the committed database. *)
Definition fresh_session (w : World) : Prop := db_session w = db w.

(** Who makes the request, as [add_user_to_g] will see it. *)
Definition logged_in_as (w : World) (u : User.t) : Prop :=
  ∃ k, session_curr_user w = Some k ∧ user_get (db_session w) k = Some u.

Definition unauthenticated (w : World) : Prop :=
  ∀ u, ¬ logged_in_as w u.

Definition anonymous (w : World) : Prop := session_curr_user w = None.

(** ** A small database to run the handlers on *)

Module Sample.
Definition alice : User.t :=
  User.mk 1 "alice" "alice@example.com" "hash:apple" "/a.png" "/ah.png" "" "".
Definition bob : User.t :=
  User.mk 2 "bob" "bob@example.com" "hash:banana" "/b.png" "/bh.png" "" "".
Definition alice_msg : Message.t := Message.mk 10 "hello from alice" 100 1.
Definition bob_msg : Message.t := Message.mk 20 "hello from bob" 200 2.

Definition database : DB := mkDB [alice; bob] [alice_msg; bob_msg] [] [].

(** The same, with Bob following Alice and liking her message. *)
Definition database_liked : DB :=
  mkDB [alice; bob] [alice_msg; bob_msg] [(2, 1)] [(1, 20); (2, 10)].

Definition world_liked (curr_user : option Z) : World :=
  mkWorld database_liked database_liked curr_user [] None.

Definition world (curr_user : option Z) : World :=
  mkWorld database database curr_user [] None.

Definition post (csrf : bool) : Request :=
  mkRequest POST csrf true "carol" "cherry" "carol@example.com" "" "" "" "hi" None 300.

Definition generate_password_hash (p : string) : string := "hash:" +:+ p.
Definition check_password_hash (h p : string) : bool := String.eqb h ("hash:" +:+ p).
End Sample.

(** * Verification *)

(** ** Lookups and the current user *)

Lemma user_get_id (d : DB) (k : Z) (u : User.t) :
  user_get d k = Some u → User.id u = k.
Proof.
  unfold user_get. intros H. apply find_some in H as [_ H]. lia.
Qed.

Lemma message_get_id (d : DB) (k : Z) (m : Message.t) :
  message_get d k = Some m → Message.id m = k.
Proof.
  unfold message_get. intros H. apply find_some in H as [_ H]. lia.
Qed.

Lemma message_get_elem (d : DB) (k : Z) (m : Message.t) :
  message_get d k = Some m → m ∈ messages d.
Proof.
  unfold message_get. intros H. apply find_some in H as [H _].
  by apply list_elem_of_In.
Qed.

Lemma add_user_to_g_logged_in (w : World) (u : User.t) :
  logged_in_as w u → add_user_to_g w = (Ret tt, set_g_user (Some u) w).
Proof.
  intros (k & Hk & Hu). unfold add_user_to_g. by rewrite Hk, Hu.
Qed.

Lemma add_user_to_g_unauthenticated (w : World) :
  unauthenticated w → add_user_to_g w = (Ret tt, set_g_user None w).
Proof.
  intros Hw. unfold add_user_to_g.
  destruct (session_curr_user w) as [k|] eqn:Hk; [|done].
  destruct (user_get (db_session w) k) as [u|] eqn:Hu; [|done].
  destruct (Hw u). by exists k.
Qed.

Lemma add_user_to_g_sets_g (w : World) :
  ∃ g, add_user_to_g w = (Ret tt, set_g_user g w).
Proof. unfold add_user_to_g. destruct (session_curr_user w); eauto. Qed.

Lemma handle_request_after {A} (view : M A) (w w0 : World) :
  add_user_to_g w = (Ret tt, w0) → handle_request view w = view w0.
Proof. intros H. unfold handle_request, mbind, M_bind. by rewrite H. Qed.

Lemma anonymous_unauthenticated (w : World) : anonymous w → unauthenticated w.
Proof. intros Hw u (k & Hk & _). unfold anonymous in Hw. congruence. Qed.

Lemma failed_token (req : Request) :
  csrf_valid req = false → ∀ f, validate_on_submit f req = false.
Proof.
  intros H f. unfold validate_on_submit. rewrite H.
  destruct f, (is_submitted req); reflexivity.
Qed.

(** Unfolding one layer of the monad and of the views. *)
Ltac run_monad :=
  unfold mbind, M_bind, mret, M_ret, raise, get_world, get_g_user,
    flash, update_db_session, modify, g_user_attr; simpl.

Ltac enter_view :=
  unfold handle_request, unauthorized, logout, add_follow, stop_following,
    delete_user, messages_add, messages_destroy, handle_message_like_unlike,
    profile, users_show, messages_show, homepage, do_logout, do_login.

Ltac as_user H :=
  enter_view; unfold mbind at 1, M_bind at 1;
  rewrite (add_user_to_g_logged_in _ _ H); run_monad.

Ltac as_nobody H :=
  enter_view; unfold mbind at 1, M_bind at 1;
  rewrite (add_user_to_g_unauthenticated _ H); run_monad.

(** ** Requests whose form token fails validation *)

(** C10.  An authenticated POST to /logout, /users/follow/<id>, /users/delete
    or /messages/<id>/like whose anti-forgery token fails validation falls
    through every branch of its handler: the view returns no response
    ([None]), and it neither mutates anything nor flashes, renders or
    redirects; the world is left as [add_user_to_g] set it up. *)
Theorem failed_token_returns_nothing (req : Request) (w : World) (u : User.t) :
  logged_in_as w u →
  csrf_valid req = false →
  handle_request (logout req) w = (Ret None, set_g_user (Some u) w) ∧
  (∀ follow_id,
     handle_request (add_follow follow_id req) w = (Ret None, set_g_user (Some u) w)) ∧
  handle_request (delete_user req) w = (Ret None, set_g_user (Some u) w) ∧
  (∀ message_id,
     handle_request (handle_message_like_unlike message_id req) w
     = (Ret None, set_g_user (Some u) w)).
Proof.
  intros Hu Htoken.
  pose proof (failed_token req Htoken ForValidationForm) as Hform.
  repeat split; intros; as_user Hu; by rewrite Hform.
Qed.

Lemma failed_token_returns_nothing_witness :
  logged_in_as (Sample.world (Some 1)) Sample.alice ∧
  csrf_valid (Sample.post false) = false ∧
  handle_request (handle_message_like_unlike 20 (Sample.post false))
                 (Sample.world (Some 1))
  = (Ret None, set_g_user (Some Sample.alice) (Sample.world (Some 1))).
Proof.
  assert (H : logged_in_as (Sample.world (Some 1)) Sample.alice)
    by (exists 1; split; reflexivity).
  split; [exact H|]. split; [reflexivity|].
  apply (failed_token_returns_nothing (Sample.post false) _ _ H eq_refl).
Defined.

(** ** Anonymous visitors on the two show routes *)

(** C9.  For an anonymous request (no user key in the session, so [g.user] is
    [None]) GET /messages/<id> and GET /users/<id> end in an error instead of
    a page or a redirect: both read [g.user.liked_messages] on the missing
    current user, which raises.  On /users/<id> the user lookup comes first,
    so for an id that names no user the error is the not-found abort. *)
Theorem anonymous_show_routes_raise (w : World) :
  anonymous w →
  (∀ message_id,
     handle_request (messages_show message_id) w
     = (Raise AttributeError, set_g_user None w)) ∧
  (∀ user_id,
     handle_request (users_show user_id) w
     = (Raise (match user_get (db_session w) user_id with
               | Some _ => AttributeError
               | None => NotFound
               end), set_g_user None w)).
Proof.
  intros Hw. apply anonymous_unauthenticated in Hw.
  split; intros k; as_nobody Hw; [reflexivity|].
  unfold User_query_get_or_404, User_query_get. run_monad.
  by destruct (user_get (db_session w) k).
Qed.

Lemma anonymous_show_routes_raise_witness :
  anonymous (Sample.world None) ∧
  handle_request (users_show 1) (Sample.world None)
  = (Raise AttributeError, set_g_user None (Sample.world None)).
Proof.
  split; [reflexivity|].
  apply (proj2 (anonymous_show_routes_raise (Sample.world None) eq_refl) 1).
Defined.

(** ** The session guard of the mutating routes *)

Section Guards.
Variable check_password_hash : string → string → bool.
Variables image_url_default header_image_url_default : string.

Let the_view := view check_password_hash image_url_default header_image_url_default.

Lemma unauthenticated_view (r : MutatingRoute) (req : Request) (w : World) :
  r ≠ POST_logout →
  unauthenticated w →
  handle_request (the_view r req) w
  = (Ret (Some (Redirect "/")),
     add_flash "Access unauthorized." "danger" (set_g_user None w)).
Proof.
  intros Hr Hw. destruct r; try done; unfold the_view, view; by as_nobody Hw.
Qed.

Lemma failed_token_view (r : MutatingRoute) (req : Request) (w : World) :
  csrf_valid req = false →
  db (handle_request (the_view r req) w).2 = db w ∧
  db_session (handle_request (the_view r req) w).2 = db_session w ∧
  session_curr_user (handle_request (the_view r req) w).2 = session_curr_user w.
Proof.
  intros Htoken. pose proof (failed_token req Htoken) as Hform.
  destruct (add_user_to_g_sets_g w) as [g Hg].
  rewrite !(handle_request_after _ _ _ Hg).
  destruct g, r; unfold the_view, view; enter_view; run_monad;
    by rewrite ?Hform.
Qed.

Lemma logout_view (req : Request) (w : World) :
  validate_on_submit ForValidationForm req = true →
  (handle_request (the_view POST_logout req) w).1 = Ret (Some (Redirect "/login")) ∧
  session_curr_user (handle_request (the_view POST_logout req) w).2 = None.
Proof.
  intros Hform.
  destruct (add_user_to_g_sets_g w) as [g Hg].
  rewrite !(handle_request_after _ _ _ Hg).
  unfold the_view, view; enter_view; run_monad; by rewrite Hform.
Qed.
End Guards.

(** C1, the claim as stated, fails on /logout: [logout] never looks at
    [g.user].  An anonymous POST to /logout with a valid token is answered
    with a redirect to /login (and the flash "Successfully logged out"), not
    with the redirect to / of the guarded routes. *)
Lemma logout_unauthenticated_counterexample :
  unauthenticated (Sample.world None) ∧
  handle_request (view Sample.check_password_hash "" "" POST_logout (Sample.post true))
                 (Sample.world None)
  = (Ret (Some (Redirect "/login")),
     add_flash "Successfully logged out" "success" (Sample.world None)) ∧
  ¬ ∃ w', handle_request
            (view Sample.check_password_hash "" "" POST_logout (Sample.post true))
            (Sample.world None)
          = (Ret (Some (Redirect "/")), w').
Proof.
  split; [by apply anonymous_unauthenticated|].
  split; [reflexivity|].
  intros [w' H]. vm_compute in H. discriminate H.
Qed.

(** C1, as amended.  Of the eight mutating routes, the seven other than
    /logout check the session first: an unauthenticated request to any of
    them is answered with a redirect to / and the flash "Access
    unauthorized.", and nothing else changes.  Every one of the eight needs a
    validated form token before it writes: when the token fails, the
    committed database, the unit of work and the logged-in user of the
    session are what they were.  /logout has no session check: with a
    validated token it clears the session key and redirects to /login,
    whoever asks. *)
Theorem mutating_routes_guarded
    (check_password_hash : string → string → bool)
    (image_url_default header_image_url_default : string)
    (r : MutatingRoute) (req : Request) (w : World) :
  let response :=
    handle_request
      (view check_password_hash image_url_default header_image_url_default r req) w in
  (r ≠ POST_logout → unauthenticated w →
   response = (Ret (Some (Redirect "/")),
               add_flash "Access unauthorized." "danger" (set_g_user None w))) ∧
  (csrf_valid req = false →
   db response.2 = db w ∧
   db_session response.2 = db_session w ∧
   session_curr_user response.2 = session_curr_user w) ∧
  (r = POST_logout → validate_on_submit ForValidationForm req = true →
   response.1 = Ret (Some (Redirect "/login")) ∧
   session_curr_user response.2 = None).
Proof.
  simpl. split; [|split].
  - apply unauthenticated_view.
  - apply failed_token_view.
  - intros ->. apply logout_view.
Qed.

Lemma mutating_routes_guarded_witness :
  (POST_messages_delete 10 ≠ POST_logout ∧
   unauthenticated (Sample.world None) ∧
   handle_request
     (view Sample.check_password_hash "" "" (POST_messages_delete 10) (Sample.post true))
     (Sample.world None)
   = (Ret (Some (Redirect "/")),
      add_flash "Access unauthorized." "danger" (set_g_user None (Sample.world None)))) ∧
  (csrf_valid (Sample.post false) = false ∧
   db (handle_request
         (view Sample.check_password_hash "" "" (POST_messages_delete 10) (Sample.post false))
         (Sample.world (Some 1))).2
   = Sample.database) ∧
  (validate_on_submit ForValidationForm (Sample.post true) = true ∧
   session_curr_user
     (handle_request
        (view Sample.check_password_hash "" "" POST_logout (Sample.post true))
        (Sample.world (Some 1))).2
   = None).
Proof.
  assert (Hnobody : unauthenticated (Sample.world None))
    by (by apply anonymous_unauthenticated).
  split; [split; [discriminate | split; [exact Hnobody|]] | split; split; [reflexivity | | reflexivity |]].
  - apply (mutating_routes_guarded Sample.check_password_hash "" ""
             (POST_messages_delete 10) (Sample.post true) (Sample.world None));
      [discriminate | exact Hnobody].
  - apply (mutating_routes_guarded Sample.check_password_hash "" ""
             (POST_messages_delete 10) (Sample.post false) (Sample.world (Some 1))).
    reflexivity.
  - apply (mutating_routes_guarded Sample.check_password_hash "" ""
             POST_logout (Sample.post true) (Sample.world (Some 1)));
      reflexivity.
Defined.

(** ** The like toggle *)

Lemma remove_first_app_fresh (e : Z * Z) (l : list (Z * Z)) :
  e ∉ l → remove_first e (l ++ [e]) = l.
Proof.
  induction l as [|x l IH]; simpl; intros Hl.
  - by rewrite decide_True.
  - apply not_elem_of_cons in Hl as [Hx Hl].
    rewrite decide_False by done. by rewrite IH.
Qed.

Lemma remove_first_Permutation (e : Z * Z) (l : list (Z * Z)) :
  e ∈ l → l ≡ₚ remove_first e l ++ [e].
Proof.
  induction l as [|x l IH]; simpl; intros Hl.
  - by apply elem_of_nil in Hl.
  - destruct (decide (x = e)) as [->|Hx].
    + by rewrite Permutation_app_comm.
    + apply elem_of_cons in Hl as [?|Hl]; [congruence|].
      simpl. by rewrite <- IH.
Qed.

Lemma remove_first_sublist (e : Z * Z) (l : list (Z * Z)) :
  remove_first e l `sublist_of` l.
Proof.
  induction l as [|x l IH]; simpl; [done|].
  destruct (decide (x = e)); [by apply sublist_cons | by apply sublist_skip].
Qed.

Lemma remove_first_NoDup (e : Z * Z) (l : list (Z * Z)) :
  NoDup l → e ∉ remove_first e l.
Proof.
  induction 1 as [|x l Hx Hl IH]; simpl; [apply not_elem_of_nil|].
  destruct (decide (x = e)) as [->|Hne]; [done|].
  apply not_elem_of_cons. split; [congruence | done].
Qed.

(** [message_id in user_likes_ids] reads the like row of the pair. *)
Lemma is_liked_iff (d : DB) (u : User.t) (m : Message.t) (message_id : Z) :
  message_get d message_id = Some m →
  message_id ∈ Message.id <$> liked_messages d u ↔ (User.id u, message_id) ∈ likes d.
Proof.
  intros Hm. unfold liked_messages. rewrite list_elem_of_fmap. split.
  - intros (m' & -> & Hin).
    apply list_elem_of_omap in Hin as ([a b] & Hin & Hjoin). simpl in Hjoin.
    destruct (a =? User.id u) eqn:Ha; [|done].
    apply message_get_id in Hjoin. apply Z.eqb_eq in Ha. by subst.
  - intros Hin. exists m. split; [by rewrite (message_get_id _ _ _ Hm)|].
    apply list_elem_of_omap. exists (User.id u, message_id).
    split; [done|]. simpl. by rewrite Z.eqb_refl.
Qed.

Lemma existsb_message_id (msg : Message.t) (l : list Message.t) :
  existsb (λ x, Message.id x =? Message.id msg) l
  = bool_decide (Message.id msg ∈ Message.id <$> l).
Proof.
  induction l as [|x l IH]; simpl; [done|].
  rewrite IH. destruct (Z.eqb_spec (Message.id x) (Message.id msg)) as [Heq|Hne]; simpl.
  - symmetry. apply bool_decide_eq_true_2. rewrite Heq. apply list_elem_of_here.
  - apply bool_decide_ext. rewrite elem_of_cons.
    split; [by right | intros [?|?]; [congruence | done]].
Qed.

Lemma unique_violation_same_users (committed pending : DB) :
  users pending = users committed → unique_violation committed pending = false.
Proof.
  intros Hsame. apply not_true_is_false. intros H.
  unfold unique_violation in H. apply existsb_exists in H as (u & Hin & H).
  apply andb_prop in H as [H _]. rewrite Hsame in Hin.
  apply list_elem_of_In in Hin. rewrite bool_decide_eq_true_2 in H by done.
  done.
Qed.

Ltac enter_like :=
  unfold _handle_like_unlike, Message_query_get_or_404, Message_query_get,
    liked_messages_append, liked_messages_remove, db_session_commit;
  run_monad.

Lemma like_own_message (w : World) (u : User.t) (m : Message.t) (message_id k : Z) :
  g_user w = Some u →
  message_get (db_session w) message_id = Some m →
  Message.user_id m = User.id u →
  _handle_like_unlike message_id k w
  = (Ret (Some (Redirect (user_url u))),
     add_flash "Sorry, you cannot like your own message!" "danger" w).
Proof.
  intros Hg Hm Hown. enter_like. rewrite Hg. simpl. rewrite Hm. simpl.
  by rewrite Hown, Z.eqb_refl.
Qed.

Lemma like_step (w : World) (u : User.t) (m : Message.t) (message_id k : Z) :
  g_user w = Some u →
  users (db_session w) = users (db w) →
  message_get (db_session w) message_id = Some m →
  Message.user_id m ≠ User.id u →
  (User.id u, message_id) ∉ likes (db_session w) →
  _handle_like_unlike message_id k w
  = (Ret None,
     committed (add_flash "message liked!" "success"
       (set_db_session
          (mkDB (users (db_session w)) (messages (db_session w)) (follows (db_session w))
                (likes (db_session w) ++ [(User.id u, message_id)])) w))).
Proof.
  intros Hg Husers Hm Hother Hnew. enter_like. rewrite Hg. simpl. rewrite Hm. simpl.
  apply Z.eqb_neq in Hother. rewrite Hother.
  rewrite bool_decide_eq_false_2 by (by rewrite (is_liked_iff _ _ _ _ Hm)).
  simpl. rewrite unique_violation_same_users by done.
  by rewrite (message_get_id _ _ _ Hm).
Qed.

Lemma unlike_step (w : World) (u : User.t) (m : Message.t) (message_id k : Z) :
  g_user w = Some u →
  users (db_session w) = users (db w) →
  message_get (db_session w) message_id = Some m →
  Message.user_id m ≠ User.id u →
  (User.id u, message_id) ∈ likes (db_session w) →
  _handle_like_unlike message_id k w
  = (Ret None,
     committed (add_flash "message unliked!" "danger"
       (set_db_session
          (mkDB (users (db_session w)) (messages (db_session w)) (follows (db_session w))
                (remove_first (User.id u, message_id) (likes (db_session w)))) w))).
Proof.
  intros Hg Husers Hm Hother Hold. enter_like. rewrite Hg. simpl. rewrite Hm. simpl.
  apply Z.eqb_neq in Hother. rewrite Hother.
  assert (Hliked : message_id ∈ Message.id <$> liked_messages (db_session w) u)
    by (by rewrite (is_liked_iff _ _ _ _ Hm)).
  rewrite bool_decide_eq_true_2 by done.
  simpl. rewrite existsb_message_id, (message_get_id _ _ _ Hm).
  rewrite bool_decide_eq_true_2 by done.
  simpl. by rewrite unique_violation_same_users.
Qed.

(** The like rows stay free of duplicates under the toggle: a row is only
    appended when the pair is not there yet. *)
Lemma like_toggle_NoDup (w w' : World) (u : User.t) (m : Message.t)
    (message_id k : Z) (o : outcome (option Response)) :
  g_user w = Some u →
  message_get (db_session w) message_id = Some m →
  NoDup (likes (db_session w)) →
  _handle_like_unlike message_id k w = (o, w') →
  NoDup (likes (db_session w')).
Proof.
  intros Hg Hm Hnodup. enter_like. rewrite Hg. simpl. rewrite Hm. simpl.
  destruct (Message.user_id m =? User.id u); [by intros [= _ <-]|].
  destruct (bool_decide _) eqn:Hliked; simpl.
  - rewrite existsb_message_id, (message_get_id _ _ _ Hm), Hliked. simpl.
    destruct (unique_violation _ _); intros [= _ <-]; simpl;
      eauto using sublist_NoDup, remove_first_sublist.
  - apply bool_decide_eq_false_1 in Hliked.
    rewrite (is_liked_iff _ _ _ _ Hm) in Hliked.
    destruct (unique_violation _ _); intros [= _ <-]; simpl;
      rewrite (message_get_id _ _ _ Hm); apply NoDup_app;
      (split; [done|]); (split; [|apply NoDup_singleton]);
      intros e He Hs; apply list_elem_of_singleton in Hs; by subst.
Qed.

(** C2.  When the logged-in user is the author of the message, the like
    helper flashes "Sorry, you cannot like your own message!" and returns
    before it touches the like rows or commits: the world it leaves differs
    from the one it found by that flashed message alone.  Seen from the
    route: whatever the request, POST /messages/<id>/like leaves the
    committed database and the unit of work as they were, and every request
    that passes the route's token check (the only path into the helper) is
    answered with the rejection flashed. *)
Theorem own_message_like_rejected (w : World) (u : User.t) (m : Message.t)
    (message_id : Z) :
  logged_in_as w u →
  message_get (db_session w) message_id = Some m →
  Message.user_id m = User.id u →
  _handle_like_unlike message_id (User.id u) (set_g_user (Some u) w)
  = (Ret (Some (Redirect (user_url u))),
     add_flash "Sorry, you cannot like your own message!" "danger"
               (set_g_user (Some u) w)) ∧
  ∀ req,
    let response := handle_request (handle_message_like_unlike message_id req) w in
    db response.2 = db w ∧
    db_session response.2 = db_session w ∧
    (validate_on_submit ForValidationForm req = true →
     response = (Ret (Some (Redirect (referrer_or_home req))),
                 add_flash "Sorry, you cannot like your own message!" "danger"
                           (set_g_user (Some u) w))).
Proof.
  intros Hu Hm Hown.
  assert (Hhelper : ∀ k, _handle_like_unlike message_id k (set_g_user (Some u) w)
          = (Ret (Some (Redirect (user_url u))),
             add_flash "Sorry, you cannot like your own message!" "danger"
                       (set_g_user (Some u) w)))
    by (intros k; by apply (like_own_message _ u m)).
  split; [apply Hhelper|]. intros req. simpl.
  rewrite (handle_request_after _ _ _ (add_user_to_g_logged_in _ _ Hu)).
  unfold handle_message_like_unlike, referrer_or_home. run_monad.
  destruct (validate_on_submit ForValidationForm req); [|by repeat split].
  rewrite Hhelper. simpl.
  repeat split; intros; destruct (referrer req) as [r|]; try done;
    by destruct (decide (r = "")).
Qed.

Lemma own_message_like_rejected_witness :
  logged_in_as (Sample.world (Some 1)) Sample.alice ∧
  message_get Sample.database 10 = Some Sample.alice_msg ∧
  Message.user_id Sample.alice_msg = User.id Sample.alice ∧
  handle_request (handle_message_like_unlike 10 (Sample.post true)) (Sample.world (Some 1))
  = (Ret (Some (Redirect "/")),
     add_flash "Sorry, you cannot like your own message!" "danger"
               (set_g_user (Some Sample.alice) (Sample.world (Some 1)))).
Proof.
  assert (H : logged_in_as (Sample.world (Some 1)) Sample.alice)
    by (exists 1; split; reflexivity).
  split; [exact H|]. split; [reflexivity|]. split; [reflexivity|].
  apply (own_message_like_rejected (Sample.world (Some 1)) Sample.alice
           Sample.alice_msg 10 H eq_refl eq_refl).
  reflexivity.
Defined.

(** C3.  For a logged-in user and a message of somebody else, running the
    like helper twice in a row, starting where a request starts (nothing
    pending) and with every like row present once, first flips whether the
    user likes the message and then flips it back: both calls return
    normally, and the committed like rows are the original ones again, as a
    collection.  Users, messages and follow rows are never touched. *)
Theorem like_toggle_twice_restores (w : World) (u : User.t) (m : Message.t)
    (message_id : Z) :
  g_user w = Some u →
  fresh_session w →
  message_get (db_session w) message_id = Some m →
  Message.user_id m ≠ User.id u →
  NoDup (likes (db_session w)) →
  ∃ w1 w2,
    _handle_like_unlike message_id (User.id u) w = (Ret None, w1) ∧
    _handle_like_unlike message_id (User.id u) w1 = (Ret None, w2) ∧
    ((User.id u, message_id) ∈ likes (db w1) ↔ (User.id u, message_id) ∉ likes (db w)) ∧
    likes (db w2) ≡ₚ likes (db w) ∧
    users (db w2) = users (db w) ∧
    messages (db w2) = messages (db w) ∧
    follows (db w2) = follows (db w) ∧
    db_session w2 = db w2.
Proof.
  intros Hg Hfresh Hm Hother Hnodup. unfold fresh_session in Hfresh.
  assert (Husers : users (db_session w) = users (db w)) by (by rewrite Hfresh).
  destruct (decide ((User.id u, message_id) ∈ likes (db_session w))) as [Hliked|Hnew].
  - pose proof (remove_first_NoDup (User.id u, message_id) _ Hnodup) as Hgone.
    eexists _, _. split; [by apply (unlike_step _ u m)|].
    split; [by apply (like_step _ u m)|].
    simpl. rewrite <- Hfresh. repeat split; try done.
    by rewrite <- remove_first_Permutation.
  - eexists _, _. split; [by apply (like_step _ u m)|].
    split.
    { apply (unlike_step _ u m); try done.
      simpl. apply elem_of_app. right. apply list_elem_of_singleton. done. }
    simpl. rewrite <- Hfresh. repeat split; try done.
    + intros _. apply elem_of_app. right. by apply list_elem_of_singleton.
    + by rewrite remove_first_app_fresh.
Qed.

Lemma like_toggle_twice_restores_witness :
  ∃ w1 w2,
    _handle_like_unlike 10 2 (set_g_user (Some Sample.bob) (Sample.world_liked (Some 2)))
    = (Ret None, w1) ∧
    _handle_like_unlike 10 2 w1 = (Ret None, w2) ∧
    ((2, 10) ∈ likes (db w1) ↔ (2, 10) ∉ likes Sample.database_liked) ∧
    likes (db w2) ≡ₚ likes Sample.database_liked ∧
    users (db w2) = users Sample.database_liked ∧
    messages (db w2) = messages Sample.database_liked ∧
    follows (db w2) = follows Sample.database_liked ∧
    db_session w2 = db w2.
Proof.
  apply (like_toggle_twice_restores
           (set_g_user (Some Sample.bob) (Sample.world_liked (Some 2)))
           Sample.bob Sample.alice_msg 10).
  - reflexivity.
  - reflexivity.
  - reflexivity.
  - simpl. lia.
  - simpl. apply (bool_decide_unpack _). vm_compute. exact I.
Defined.

(** ** The homepage *)

#[local] Instance newer_first_transitive : Transitive newer_first.
Proof. intros m1 m2 m3. unfold newer_first. lia. Qed.

#[local] Instance newer_first_total : Total newer_first.
Proof. intros m1 m2. unfold newer_first. lia. Qed.

Lemma homepage_query_length (d : DB) (u : User.t) :
  (length (homepage_query d u) ≤ 100)%nat.
Proof. unfold homepage_query. rewrite length_take. lia. Qed.

Lemma homepage_query_sorted (d : DB) (u : User.t) :
  StronglySorted newer_first (homepage_query d u).
Proof.
  unfold homepage_query.
  set (sorted := merge_sort newer_first _).
  assert (H : StronglySorted newer_first sorted)
    by (apply StronglySorted_merge_sort; apply _).
  rewrite <- (take_drop 100 sorted) in H.
  by apply StronglySorted_app_1_l in H.
Qed.

Lemma homepage_query_elem (d : DB) (u : User.t) (m : Message.t) :
  m ∈ homepage_query d u →
  m ∈ messages d ∧
  (Message.user_id m = User.id u ∨
   ∃ f, f ∈ following d u ∧ Message.user_id m = User.id f).
Proof.
  unfold homepage_query. intros Hm.
  eapply elem_of_sublist in Hm; [|apply sublist_take].
  rewrite merge_sort_Permutation in Hm.
  apply list_elem_of_filter in Hm as [[Hfollowed|Hself] Hin].
  - split; [done|]. right.
    apply list_elem_of_fmap in Hfollowed as (f & Hid & Hf). by exists f.
  - split; [done|]. by left.
Qed.

(** A followed user is one at the far end of a follow row of the user. *)
Lemma following_edge (d : DB) (u f : User.t) :
  f ∈ following d u ↔
  (User.id u, User.id f) ∈ follows d ∧ user_get d (User.id f) = Some f.
Proof.
  unfold following. rewrite list_elem_of_omap. split.
  - intros ([a b] & Hin & Hjoin). simpl in Hjoin.
    destruct (a =? User.id u) eqn:Ha; [|done].
    apply Z.eqb_eq in Ha. pose proof (user_get_id _ _ _ Hjoin). by subst.
  - intros [Hin Hf]. exists (User.id u, User.id f). split; [done|].
    simpl. by rewrite Z.eqb_refl.
Qed.

Lemma is_following_iff (d : DB) (u f : User.t) (follow_id : Z) :
  user_get d follow_id = Some f →
  existsb (λ x, User.id x =? User.id f) (following d u) = true
  ↔ (User.id u, follow_id) ∈ follows d.
Proof.
  intros Hf. pose proof (user_get_id _ _ _ Hf) as Hid. rewrite existsb_exists. split.
  - intros (x & Hx & Heq). apply Z.eqb_eq in Heq.
    apply list_elem_of_In, following_edge in Hx as [Hx _]. congruence.
  - intros Hin. exists f. split; [|apply Z.eqb_refl].
    apply list_elem_of_In, following_edge. by rewrite Hid.
Qed.

Lemma homepage_query_cut (d : DB) (u : User.t) (m : Message.t) :
  m ∈ messages d →
  Message.user_id m ∈ User.id <$> following d u ∨ Message.user_id m = User.id u →
  m ∈ homepage_query d u ∨
  ∀ s, s ∈ homepage_query d u → Message.timestamp m ≤ Message.timestamp s.
Proof.
  intros Hin Hwho. unfold homepage_query.
  set (sorted := merge_sort newer_first _).
  assert (Hsorted : StronglySorted newer_first sorted)
    by (apply StronglySorted_merge_sort; apply _).
  assert (Hm : m ∈ sorted).
  { unfold sorted. rewrite merge_sort_Permutation. by apply list_elem_of_filter. }
  rewrite <- (take_drop 100 sorted) in Hsorted, Hm.
  apply elem_of_app in Hm as [Hm|Hm]; [by left|]. right.
  intros s Hs. apply (StronglySorted_app_1_elem_of _ _ _ _ _ Hsorted Hs Hm).
Qed.

Lemma homepage_query_count (d : DB) (u : User.t) :
  length (homepage_query d u)
  = (100 `min`
     length (filter (λ m, Message.user_id m ∈ User.id <$> following d u ∨
                          Message.user_id m = User.id u) (messages d)))%nat.
Proof.
  unfold homepage_query. by rewrite length_take, merge_sort_Permutation.
Qed.

(** C4.  GET / for an anonymous visitor renders the anonymous page, to which
    no message list is passed.  For a logged-in user it renders home.html
    with a list of at most 100 messages, ordered by timestamp with the newest
    first, each of them a stored message whose author is the user or one of
    the users the user follows.  The list is not just any such list: it has
    as many messages as there are stored ones by the user or by a followed
    user, up to 100, and each of those that is left out is no newer than
    every message shown. *)
Theorem homepage_messages (w : World) :
  (anonymous w →
   handle_request homepage w
   = (Ret (Some (Render "home-anon.html" NoContext)), set_g_user None w)) ∧
  (∀ u, logged_in_as w u →
     ∃ shown liked_msg_ids,
       handle_request homepage w
       = (Ret (Some (Render "home.html" (WithMessages shown liked_msg_ids))),
          set_g_user (Some u) w) ∧
       (length shown ≤ 100)%nat ∧
       StronglySorted (λ m1 m2, Message.timestamp m2 ≤ Message.timestamp m1) shown ∧
       (∀ m, m ∈ shown →
          m ∈ messages (db_session w) ∧
          (Message.user_id m = User.id u ∨
           ∃ f, f ∈ following (db_session w) u ∧ Message.user_id m = User.id f)) ∧
       length shown
       = (100 `min`
          length (filter (λ m, Message.user_id m ∈ User.id <$> following (db_session w) u ∨
                               Message.user_id m = User.id u)
                         (messages (db_session w))))%nat ∧
       (∀ m, m ∈ messages (db_session w) →
          (Message.user_id m = User.id u ∨
           ∃ f, f ∈ following (db_session w) u ∧ Message.user_id m = User.id f) →
          m ∈ shown ∨ ∀ s, s ∈ shown → Message.timestamp m ≤ Message.timestamp s)).
Proof.
  split.
  - intros Hw. apply anonymous_unauthenticated in Hw. by as_nobody Hw.
  - intros u Hu. eexists (homepage_query (db_session w) u), _.
    split; [by as_user Hu|].
    split; [apply homepage_query_length|].
    split; [apply homepage_query_sorted|].
    split; [apply homepage_query_elem|].
    split; [apply homepage_query_count|].
    intros m Hm Hwho. apply homepage_query_cut; [done|].
    destruct Hwho as [Hself|(f & Hf & Hauthor)]; [by right|left].
    rewrite Hauthor. by apply list_elem_of_fmap_2.
Qed.

Lemma homepage_messages_witness :
  (anonymous (Sample.world_liked None) ∧
   handle_request homepage (Sample.world_liked None)
   = (Ret (Some (Render "home-anon.html" NoContext)),
      set_g_user None (Sample.world_liked None))) ∧
  (logged_in_as (Sample.world_liked (Some 2)) Sample.bob ∧
   ∃ shown liked_msg_ids,
     handle_request homepage (Sample.world_liked (Some 2))
     = (Ret (Some (Render "home.html" (WithMessages shown liked_msg_ids))),
        set_g_user (Some Sample.bob) (Sample.world_liked (Some 2))) ∧
     (length shown ≤ 100)%nat ∧
     StronglySorted (λ m1 m2, Message.timestamp m2 ≤ Message.timestamp m1) shown ∧
     (∀ m, m ∈ shown →
        m ∈ messages Sample.database_liked ∧
        (Message.user_id m = 2 ∨
         ∃ f, f ∈ following Sample.database_liked Sample.bob ∧
              Message.user_id m = User.id f)) ∧
     length shown = 2%nat ∧
     (∀ m, m ∈ messages Sample.database_liked →
        (Message.user_id m = 2 ∨
         ∃ f, f ∈ following Sample.database_liked Sample.bob ∧
              Message.user_id m = User.id f) →
        m ∈ shown ∨ ∀ s, s ∈ shown → Message.timestamp m ≤ Message.timestamp s)).
Proof.
  assert (H : logged_in_as (Sample.world_liked (Some 2)) Sample.bob)
    by (exists 2; split; reflexivity).
  split; (split; [done|]).
  - apply (proj1 (homepage_messages (Sample.world_liked None))). reflexivity.
  - destruct (proj2 (homepage_messages (Sample.world_liked (Some 2))) Sample.bob H)
      as (shown & liked & Hrun & Hmax & Hsorted & Hfrom & Hcount & Hnewest).
    exists shown, liked.
    split; [exact Hrun|]. split; [exact Hmax|]. split; [exact Hsorted|].
    split; [exact Hfrom|]. split; [|exact Hnewest].
    rewrite Hcount. reflexivity.
Defined.

(** ** Signing up with a taken username or email *)

Lemma next_id_fresh (ids : list Z) (x : Z) : x ∈ ids → x < next_id ids.
Proof.
  unfold next_id. induction ids as [|y ids IH]; simpl; intros Hx.
  - by apply elem_of_nil in Hx.
  - apply elem_of_cons in Hx as [->|Hx]; [lia|]. specialize (IH Hx). lia.
Qed.

Lemma unique_violation_signup (d : DB) (v : User.t)
    (username email password image_url header_image_url : string)
    (ms : list Message.t) (fs ls : list (Z * Z)) :
  v ∈ users d →
  User.username v = username ∨ User.email v = email →
  unique_violation d
    (mkDB (users d ++ [User.mk (next_id (User.id <$> users d)) username email
                               password image_url header_image_url "" ""])
          ms fs ls) = true.
Proof.
  intros Hv Hsame. unfold unique_violation. simpl.
  set (new := User.mk _ _ _ _ _ _ _ _).
  assert (Hfresh : ∀ x, x ∈ users d → User.id x < User.id new).
  { intros x Hx. simpl. apply next_id_fresh. by apply list_elem_of_fmap_2. }
  apply existsb_exists. exists new. split.
  { apply in_or_app. right. by left. }
  apply andb_true_intro. split.
  - apply negb_true_iff, bool_decide_eq_false_2.
    intros Hin. specialize (Hfresh _ Hin). lia.
  - apply existsb_exists. exists v. split.
    { apply in_or_app. left. by apply list_elem_of_In. }
    apply andb_true_intro. split.
    + apply negb_true_iff, Z.eqb_neq. specialize (Hfresh _ Hv). lia.
    + apply orb_true_iff. simpl.
      destruct Hsame as [<-|<-]; [left|right]; apply String.eqb_refl.
Qed.

(** C5.  A signup request whose username or email is that of a stored user
    never gets past the uniqueness check: the handler answers by rendering
    the signup form again (it does not raise), the committed users are
    unchanged, so no second row is stored, and nobody is logged in by it.
    When the form validates, so that the insert is attempted and the
    database signals the violation, the handler catches it and flashes
    "Username already taken". *)
Theorem signup_duplicate_rejected
    (generate_password_hash : string → string)
    (image_url_default header_image_url_default : string)
    (req : Request) (w : World) (v : User.t) :
  fresh_session w →
  v ∈ users (db w) →
  User.username v = form_username req ∨ User.email v = form_email req →
  let response :=
    handle_request
      (signup generate_password_hash image_url_default header_image_url_default req) w in
  response.1 = Ret (Some (Render "users/signup.html" (WithForm UserAddForm))) ∧
  db response.2 = db w ∧
  session_curr_user response.2 = session_curr_user w ∧
  session_flashes response.2
  = (if validate_on_submit UserAddForm req
     then (session_flashes w ++ [("Username already taken", "danger")])%list
     else session_flashes w).
Proof.
  intros Hfresh Hv Hsame. simpl. unfold fresh_session in Hfresh.
  destruct (add_user_to_g_sets_g w) as [g Hg].
  rewrite !(handle_request_after _ _ _ Hg).
  unfold signup. destruct (validate_on_submit UserAddForm req); [|done].
  unfold try_except, User_signup, db_session_commit. run_monad.
  rewrite Hfresh, (unique_violation_signup (db w) v) by done.
  by simpl.
Qed.

Lemma signup_duplicate_rejected_witness :
  fresh_session (Sample.world None) ∧
  Sample.alice ∈ users (db (Sample.world None)) ∧
  User.username Sample.alice = "alice" ∧
  db (handle_request
        (signup Sample.generate_password_hash "/default.png" "/hero.jpg"
           (mkRequest POST true true "alice" "secret" "other@example.com"
                      "" "" "" "" None 0))
        (Sample.world None)).2
  = Sample.database.
Proof.
  split; [reflexivity|]. split; [apply list_elem_of_here|]. split; [reflexivity|].
  apply (signup_duplicate_rejected Sample.generate_password_hash
           "/default.png" "/hero.jpg"
           (mkRequest POST true true "alice" "secret" "other@example.com"
                      "" "" "" "" None 0)
           (Sample.world None) Sample.alice eq_refl
           (list_elem_of_here _ _) (or_introl eq_refl)).
Defined.

(** ** Deleting a message *)

Lemma find_filter_none (l : list Message.t) (k : Z) :
  List.find (λ m, Message.id m =? k) (filter (λ x, Message.id x ≠ k) l) = None.
Proof.
  induction l as [|x l IH]; [done|].
  rewrite filter_cons. destruct (decide (Message.id x ≠ k)) as [Hne|]; [|done].
  simpl. apply Z.eqb_neq in Hne. by rewrite Hne.
Qed.

(** [messages_destroy] never compares [msg.user_id] with [g.user.id]: any
    logged-in user who submits a valid token deletes any stored message. *)
Lemma messages_destroy_any_author (w : World) (u : User.t) (m : Message.t)
    (message_id : Z) (req : Request) :
  logged_in_as w u →
  fresh_session w →
  validate_on_submit ForValidationForm req = true →
  message_get (db_session w) message_id = Some m →
  (handle_request (messages_destroy message_id req) w).1
  = Ret (Some (Redirect (user_url u))) ∧
  message_get (db (handle_request (messages_destroy message_id req) w).2) message_id
  = None.
Proof.
  intros Hu Hfresh Hform Hm. unfold fresh_session in Hfresh.
  rewrite !(handle_request_after _ _ _ (add_user_to_g_logged_in _ _ Hu)).
  unfold messages_destroy, Message_query_get, db_session_delete_message,
    db_session_commit.
  run_monad. rewrite Hform. simpl. rewrite Hm. simpl.
  rewrite unique_violation_same_users by (by rewrite Hfresh).
  split; [done|]. simpl. unfold message_get. simpl.
  rewrite (message_get_id _ _ _ Hm). apply find_filter_none.
Qed.

(** C6.  The claim does not hold of the code.  Bob (user 2) is logged in and
    posts to /messages/10/delete with a valid token; message 10 was written
    by Alice (user 1).  The handler deletes it and redirects Bob to his
    profile: after the request the message is no longer stored. *)
Theorem messages_destroy_by_non_owner :
  logged_in_as (Sample.world (Some 2)) Sample.bob ∧
  message_get (db (Sample.world (Some 2))) 10 = Some Sample.alice_msg ∧
  Message.user_id Sample.alice_msg ≠ User.id Sample.bob ∧
  (handle_request (messages_destroy 10 (Sample.post true)) (Sample.world (Some 2))).1
  = Ret (Some (Redirect "/users/2")) ∧
  message_get
    (db (handle_request (messages_destroy 10 (Sample.post true)) (Sample.world (Some 2))).2)
    10 = None.
Proof.
  split; [exists 2; split; reflexivity|].
  split; [reflexivity|]. split; [simpl; lia|].
  split; reflexivity.
Qed.

(** ** Following oneself *)

(** C7, the claim as stated, fails.  Alice (user 1) is logged in and posts to
    /users/follow/1 with a valid token: the follow row (1, 1) is committed. *)
Lemma self_follow_counterexample :
  logged_in_as (Sample.world (Some 1)) Sample.alice ∧
  ((User.id Sample.alice, User.id Sample.alice)
   ∉ follows (db (Sample.world (Some 1)))) ∧
  ((User.id Sample.alice, User.id Sample.alice)
   ∈ follows (db (handle_request (add_follow (User.id Sample.alice) (Sample.post true))
                                 (Sample.world (Some 1))).2)).
Proof.
  split; [exists 1; split; reflexivity|].
  split; [apply not_elem_of_nil|].
  vm_compute. apply list_elem_of_here.
Qed.

(** What a validated follow request of a logged-in user does, for a stored
    user: the follow row is inserted unless it is there already. *)
Lemma add_follow_run (w : World) (u f : User.t) (follow_id : Z) (req : Request) :
  logged_in_as w u →
  users (db_session w) = users (db w) →
  validate_on_submit ForValidationForm req = true →
  user_get (db_session w) follow_id = Some f →
  handle_request (add_follow follow_id req) w
  = (Ret (Some (Redirect (user_url u +:+ "/following"))),
     committed
       (set_db_session
          (if decide ((User.id u, follow_id) ∈ follows (db_session w))
           then db_session w
           else mkDB (users (db_session w)) (messages (db_session w))
                     (follows (db_session w) ++ [(User.id u, follow_id)])
                     (likes (db_session w)))
          (set_g_user (Some u) w))).
Proof.
  intros Hu Husers Hform Hf.
  rewrite (handle_request_after _ _ _ (add_user_to_g_logged_in _ _ Hu)).
  unfold add_follow, User_query_get_or_404, User_query_get, following_append,
    db_session_commit.
  run_monad. rewrite Hform. simpl. rewrite Hf. simpl.
  pose proof (is_following_iff (db_session w) u f follow_id Hf) as Hiff.
  rewrite (user_get_id _ _ _ Hf) in *.
  destruct (decide ((User.id u, follow_id) ∈ follows (db_session w))) as [Hin|Hnot].
  - rewrite (proj2 Hiff Hin). simpl. by rewrite unique_violation_same_users.
  - destruct (existsb _ _); [by destruct Hnot; apply Hiff|].
    simpl. by rewrite unique_violation_same_users.
Qed.

(** C7, as amended.  [add_follow] has no check against following oneself: for
    every logged-in user, a POST to /users/follow/<id> with a validated form
    token and the user's own id redirects to the user's following page and
    leaves the follow row from the user to themself stored.  When that row
    was not stored yet, the request appends and commits it; when it was, the
    request stores nothing new. *)
Theorem self_follow_is_added (w : World) (u : User.t) (req : Request) :
  logged_in_as w u →
  fresh_session w →
  validate_on_submit ForValidationForm req = true →
  (handle_request (add_follow (User.id u) req) w).1
  = Ret (Some (Redirect (user_url u +:+ "/following"))) ∧
  ((User.id u, User.id u) ∈ follows (db (handle_request (add_follow (User.id u) req) w).2)) ∧
  ((User.id u, User.id u) ∉ follows (db w) →
   handle_request (add_follow (User.id u) req) w
   = (Ret (Some (Redirect (user_url u +:+ "/following"))),
      committed
        (set_db_session
           (mkDB (users (db w)) (messages (db w))
                 (follows (db w) ++ [(User.id u, User.id u)]) (likes (db w)))
           (set_g_user (Some u) w)))) ∧
  ((User.id u, User.id u) ∈ follows (db w) →
   db (handle_request (add_follow (User.id u) req) w).2 = db w).
Proof.
  intros Hu Hfresh Hform. unfold fresh_session in Hfresh.
  assert (Hself : user_get (db_session w) (User.id u) = Some u).
  { destruct Hu as (k & _ & Hu). by rewrite (user_get_id _ _ _ Hu). }
  rewrite !(add_follow_run w u u (User.id u) req Hu) by (done || by rewrite Hfresh).
  rewrite Hfresh.
  destruct (decide ((User.id u, User.id u) ∈ follows (db w))) as [Hin|Hnot]; simpl.
  - repeat split; done.
  - repeat split; [|done..].
    apply elem_of_app. right. by apply list_elem_of_singleton.
Qed.

Lemma self_follow_is_added_witness :
  logged_in_as (Sample.world (Some 1)) Sample.alice ∧
  fresh_session (Sample.world (Some 1)) ∧
  validate_on_submit ForValidationForm (Sample.post true) = true ∧
  ((1, 1) ∉ follows (db (Sample.world (Some 1)))) ∧
  handle_request (add_follow 1 (Sample.post true)) (Sample.world (Some 1))
  = (Ret (Some (Redirect "/users/1/following")),
     committed
       (set_db_session
          (mkDB (users Sample.database) (messages Sample.database) [(1, 1)] [])
          (set_g_user (Some Sample.alice) (Sample.world (Some 1))))).
Proof.
  assert (H : logged_in_as (Sample.world (Some 1)) Sample.alice)
    by (exists 1; split; reflexivity).
  assert (Hnot : (User.id Sample.alice, User.id Sample.alice)
                 ∉ follows (db (Sample.world (Some 1))))
    by apply not_elem_of_nil.
  split; [exact H|]. split; [reflexivity|]. split; [reflexivity|].
  split; [exact Hnot|].
  apply (self_follow_is_added (Sample.world (Some 1)) Sample.alice (Sample.post true)
           H eq_refl eq_refl).
  exact Hnot.
Defined.

(** ** Lookups of an id that names nothing *)

Ltac enter_lookup :=
  unfold add_follow, stop_following, messages_show, messages_destroy, users_show,
    handle_message_like_unlike, _handle_like_unlike, unauthorized,
    User_query_get_or_404, Message_query_get_or_404, User_query_get,
    Message_query_get, following_remove, following_append,
    db_session_delete_message, db_session_commit;
  run_monad.

(** The handlers that look up with plain [get] have no path to the not-found
    abort, whatever the request. *)
Lemma plain_get_never_not_found (k : Z) (req : Request) (w : World) :
  (handle_request (stop_following k req) w).1 ≠ Raise NotFound ∧
  (handle_request (messages_show k) w).1 ≠ Raise NotFound ∧
  (handle_request (messages_destroy k req) w).1 ≠ Raise NotFound.
Proof.
  destruct (add_user_to_g_sets_g w) as [g Hg].
  rewrite !(handle_request_after _ _ _ Hg).
  enter_lookup. repeat split; repeat (case_match; simpl in *); congruence.
Qed.

(** C8.  With the lookup reached (a logged-in user and, on the POST routes, a
    validated token) and an id that names no row: the handlers that use
    [get_or_404] (/users/follow/<id>, /users/<id>, the message lookup of the
    like route) end in the not-found abort, while the handlers that use plain
    [get] carry [None] on: /users/stop-following/<id> hands it to
    [following.remove], which raises [ValueError]; /messages/<id> renders its
    template with [message = None]; /messages/<id>/delete hands it to
    [db.session.delete], which raises.  None of these three ever answers
    not-found, on any request. *)
Theorem missing_id_lookups (w : World) (req : Request) (k : Z) :
  (∀ u, logged_in_as w u →
        validate_on_submit ForValidationForm req = true →
        user_get (db_session w) k = None →
        handle_request (add_follow k req) w = (Raise NotFound, set_g_user (Some u) w) ∧
        handle_request (users_show k) w = (Raise NotFound, set_g_user (Some u) w) ∧
        handle_request (stop_following k req) w
        = (Raise ValueError, set_g_user (Some u) w)) ∧
  (∀ u, logged_in_as w u →
        validate_on_submit ForValidationForm req = true →
        message_get (db_session w) k = None →
        handle_request (handle_message_like_unlike k req) w
        = (Raise NotFound, set_g_user (Some u) w) ∧
        handle_request (messages_show k) w
        = (Ret (Some (Render "messages/show.html"
                        (WithMessageLikes None
                           (Message.id <$> liked_messages (db_session w) u)))),
           set_g_user (Some u) w) ∧
        handle_request (messages_destroy k req) w
        = (Raise UnmappedInstanceError, set_g_user (Some u) w)) ∧
  ((handle_request (stop_following k req) w).1 ≠ Raise NotFound ∧
   (handle_request (messages_show k) w).1 ≠ Raise NotFound ∧
   (handle_request (messages_destroy k req) w).1 ≠ Raise NotFound).
Proof.
  split; [|split; [|apply plain_get_never_not_found]].
  - intros u Hu Hform Hmissing.
    rewrite !(handle_request_after _ _ _ (add_user_to_g_logged_in _ _ Hu)).
    enter_lookup. rewrite Hform. simpl. by rewrite !Hmissing.
  - intros u Hu Hform Hmissing.
    rewrite !(handle_request_after _ _ _ (add_user_to_g_logged_in _ _ Hu)).
    enter_lookup. rewrite Hform. simpl. by rewrite !Hmissing.
Qed.

Lemma missing_id_lookups_witness :
  logged_in_as (Sample.world (Some 1)) Sample.alice ∧
  validate_on_submit ForValidationForm (Sample.post true) = true ∧
  user_get (db_session (Sample.world (Some 1))) 99 = None ∧
  handle_request (add_follow 99 (Sample.post true)) (Sample.world (Some 1))
  = (Raise NotFound, set_g_user (Some Sample.alice) (Sample.world (Some 1))) ∧
  handle_request (stop_following 99 (Sample.post true)) (Sample.world (Some 1))
  = (Raise ValueError, set_g_user (Some Sample.alice) (Sample.world (Some 1))).
Proof.
  assert (H : logged_in_as (Sample.world (Some 1)) Sample.alice)
    by (exists 1; split; reflexivity).
  split; [exact H|]. split; [reflexivity|]. split; [reflexivity|].
  pose proof (proj1 (missing_id_lookups (Sample.world (Some 1)) (Sample.post true) 99)
                Sample.alice H eq_refl eq_refl) as (Hfollow & _ & Hstop).
  split; [exact Hfollow | exact Hstop].
Defined.


(** * Further properties of the handlers *)

(** ** Logging in and out *)

Lemma user_get_first (l : list User.t) (u : User.t) :
  NoDup (User.id <$> l) → u ∈ l →
  List.find (λ x, User.id x =? User.id u) l = Some u.
Proof.
  induction l as [|a l IH]; intros Hnodup Hin; [by apply elem_of_nil in Hin|].
  rewrite fmap_cons in Hnodup. apply NoDup_cons in Hnodup as [Ha Hnodup]. simpl.
  destruct (Z.eqb_spec (User.id a) (User.id u)) as [Heq|Hne].
  - apply elem_of_cons in Hin as [->|Hin]; [done|].
    destruct Ha. rewrite Heq. by apply list_elem_of_fmap_2.
  - apply elem_of_cons in Hin as [->|Hin]; [done|]. by apply IH.
Qed.

Lemma User_authenticate_elem (check : string → string → bool) (d : DB)
    (username password : string) (u : User.t) :
  User_authenticate check d username password = Some u →
  u ∈ users d ∧ User.username u = username ∧ check (User.password u) password = true.
Proof.
  unfold User_authenticate. intros H.
  destruct (List.find _ _) as [v|] eqn:Hfind; [|done].
  destruct (check (User.password v) password) eqn:Hcheck; [|done].
  injection H as <-. apply find_some in Hfind as [Hin Hname].
  apply String.eqb_eq in Hname. by rewrite <- list_elem_of_In in Hin.
Qed.

(** X1.  A login request whose form validates and whose credentials
    authenticate a user is answered with a redirect to / and the greeting
    flash; it writes nothing to the database, and it leaves the session such
    that the next request runs as that user. *)
Theorem login_success (check_password_hash : string → string → bool)
    (req : Request) (w : World) (u : User.t) :
  validate_on_submit LoginForm req = true →
  User_authenticate check_password_hash (db_session w)
                    (form_username req) (form_password req) = Some u →
  NoDup (User.id <$> users (db_session w)) →
  (handle_request (login check_password_hash req) w).1 = Ret (Some (Redirect "/")) ∧
  session_flashes (handle_request (login check_password_hash req) w).2
  = (session_flashes w ++ [("Hello, " +:+ User.username u +:+ "!", "success")])%list ∧
  db (handle_request (login check_password_hash req) w).2 = db w ∧
  logged_in_as (handle_request (login check_password_hash req) w).2 u.
Proof.
  intros Hform Hauth Hnodup.
  destruct (add_user_to_g_sets_g w) as [g Hg].
  rewrite !(handle_request_after _ _ _ Hg).
  unfold login, do_login. run_monad. rewrite Hform, Hauth. simpl.
  repeat split. exists (User.id u). split; [done|]. simpl.
  apply User_authenticate_elem in Hauth as [Hin _].
  by apply user_get_first.
Qed.

Lemma login_success_witness :
  validate_on_submit LoginForm (mkRequest POST true true "bob" "banana" "" "" "" "" "" None 0)
  = true ∧
  logged_in_as
    (handle_request
       (login Sample.check_password_hash
              (mkRequest POST true true "bob" "banana" "" "" "" "" "" None 0))
       (Sample.world None)).2
    Sample.bob.
Proof.
  split; [reflexivity|].
  apply (login_success Sample.check_password_hash
           (mkRequest POST true true "bob" "banana" "" "" "" "" "" None 0)
           (Sample.world None) Sample.bob eq_refl eq_refl).
  apply (bool_decide_unpack _). vm_compute. exact I.
Defined.

(** X2.  A login request that does not authenticate (the form does not
    validate, or the credentials match no user) renders the login form
    again, leaves the session key and the database as they were, and flashes
    "Invalid credentials." exactly when the form had validated. *)
Theorem login_failure (check_password_hash : string → string → bool)
    (req : Request) (w : World) :
  validate_on_submit LoginForm req = false ∨
  User_authenticate check_password_hash (db_session w)
                    (form_username req) (form_password req) = None →
  (handle_request (login check_password_hash req) w).1
  = Ret (Some (Render "users/login.html" (WithForm LoginForm))) ∧
  session_curr_user (handle_request (login check_password_hash req) w).2
  = session_curr_user w ∧
  db (handle_request (login check_password_hash req) w).2 = db w ∧
  session_flashes (handle_request (login check_password_hash req) w).2
  = (if validate_on_submit LoginForm req
     then (session_flashes w ++ [("Invalid credentials.", "danger")])%list
     else session_flashes w).
Proof.
  intros Hfail.
  destruct (add_user_to_g_sets_g w) as [g Hg].
  rewrite !(handle_request_after _ _ _ Hg).
  unfold login, do_login. run_monad.
  destruct (validate_on_submit LoginForm req); [|done].
  destruct Hfail as [?|Hauth]; [done|]. by rewrite Hauth.
Qed.

Lemma login_failure_witness :
  User_authenticate Sample.check_password_hash Sample.database "bob" "wrong" = None ∧
  session_curr_user
    (handle_request
       (login Sample.check_password_hash
              (mkRequest POST true true "bob" "wrong" "" "" "" "" "" None 0))
       (Sample.world None)).2
  = None.
Proof.
  split; [reflexivity|].
  apply (login_failure Sample.check_password_hash
           (mkRequest POST true true "bob" "wrong" "" "" "" "" "" None 0)
           (Sample.world None)).
  right. reflexivity.
Defined.

(** X3.  Once a POST to /logout with a validated token has been served, the
    next request in that session is nobody's: each of the seven guarded
    routes refuses it with the redirect to / and the flash "Access
    unauthorized.", and the homepage is the anonymous one. *)
Theorem logout_then_refused (check_password_hash : string → string → bool)
    (image_url_default header_image_url_default : string)
    (req next : Request) (w : World) (r : MutatingRoute) :
  validate_on_submit ForValidationForm req = true →
  r ≠ POST_logout →
  handle_request
    (view check_password_hash image_url_default header_image_url_default r next)
    (handle_request (logout req) w).2
  = (Ret (Some (Redirect "/")),
     add_flash "Access unauthorized." "danger"
               (set_g_user None (handle_request (logout req) w).2)) ∧
  (handle_request homepage (handle_request (logout req) w).2).1
  = Ret (Some (Render "home-anon.html" NoContext)).
Proof.
  intros Hform Hr.
  assert (Hout : anonymous (handle_request (logout req) w).2).
  { destruct (add_user_to_g_sets_g w) as [g Hg].
    rewrite (handle_request_after _ _ _ Hg).
    unfold logout, do_logout. run_monad. by rewrite Hform. }
  apply anonymous_unauthenticated in Hout.
  split; [by apply unauthenticated_view|].
  by rewrite (handle_request_after _ _ _ (add_user_to_g_unauthenticated _ Hout)).
Qed.

Lemma logout_then_refused_witness :
  validate_on_submit ForValidationForm (Sample.post true) = true ∧
  POST_users_delete ≠ POST_logout ∧
  (handle_request
     (view Sample.check_password_hash "" "" POST_users_delete (Sample.post true))
     (handle_request (logout (Sample.post true)) (Sample.world (Some 1))).2).1
  = Ret (Some (Redirect "/")).
Proof.
  split; [reflexivity|]. split; [discriminate|].
  pose proof (logout_then_refused Sample.check_password_hash "" ""
                (Sample.post true) (Sample.post true) (Sample.world (Some 1))
                POST_users_delete eq_refl) as [H _]; [discriminate|].
  by rewrite H.
Defined.

(** X4.  A session key that names no stored user counts as logged out:
    [add_user_to_g] finds nobody, so the guarded routes refuse the request
    and the homepage is the anonymous one. *)
Theorem stale_session_key (check_password_hash : string → string → bool)
    (image_url_default header_image_url_default : string)
    (req : Request) (w : World) (k : Z) :
  session_curr_user w = Some k →
  user_get (db_session w) k = None →
  (∀ r, r ≠ POST_logout →
        handle_request
          (view check_password_hash image_url_default header_image_url_default r req) w
        = (Ret (Some (Redirect "/")),
           add_flash "Access unauthorized." "danger" (set_g_user None w))) ∧
  (∀ user_id,
     handle_request (show_following user_id) w
     = (Ret (Some (Redirect "/")),
        add_flash "Access unauthorized." "danger" (set_g_user None w))) ∧
  handle_request homepage w
  = (Ret (Some (Render "home-anon.html" NoContext)), set_g_user None w).
Proof.
  intros Hk Hmissing.
  assert (Hw : unauthenticated w).
  { intros u (k' & Hk' & Hu). congruence. }
  split; [intros r Hr; by apply unauthenticated_view|].
  split; [intros user_id; unfold show_following|]; by as_nobody Hw.
Qed.

Lemma stale_session_key_witness :
  session_curr_user (Sample.world (Some 7)) = Some 7 ∧
  user_get (db_session (Sample.world (Some 7))) 7 = None ∧
  handle_request homepage (Sample.world (Some 7))
  = (Ret (Some (Render "home-anon.html" NoContext)),
     set_g_user None (Sample.world (Some 7))).
Proof.
  split; [reflexivity|]. split; [reflexivity|].
  apply (stale_session_key Sample.check_password_hash "" "" (Sample.post true)
           (Sample.world (Some 7)) 7 eq_refl eq_refl).
Defined.

(** ** Deleting the account *)

Lemma unique_violation_subset (committed pending : DB) :
  (∀ x, x ∈ users pending → x ∈ users committed) →
  unique_violation committed pending = false.
Proof.
  intros Hsub. apply not_true_is_false. intros H.
  unfold unique_violation in H. apply existsb_exists in H as (u & Hin & H).
  apply andb_prop in H as [H _]. apply list_elem_of_In, Hsub in Hin.
  rewrite bool_decide_eq_true_2 in H by done. done.
Qed.

Lemma user_get_filter (l : list User.t) (k gone : Z) :
  List.find (λ x, User.id x =? k) (filter (λ x, User.id x ≠ gone) l)
  = if decide (k = gone) then None else List.find (λ x, User.id x =? k) l.
Proof.
  induction l as [|a l IH]; [by destruct (decide (k = gone))|].
  rewrite filter_cons. simpl.
  destruct (decide (User.id a ≠ gone)) as [Hkeep|Hgone]; simpl.
  - rewrite IH. destruct (Z.eqb_spec (User.id a) k) as [Heq|Hne]; [|done].
    destruct (decide (k = gone)); [congruence|done].
  - rewrite IH. destruct (decide (k = gone)) as [->|Hne]; [done|].
    destruct (Z.eqb_spec (User.id a) k) as [Heq|?]; [|done].
    destruct Hgone. congruence.
Qed.

(** X5.  A logged-in POST to /users/delete with a validated token logs the
    user out, deletes the user's row and commits: afterwards the id names no
    user, the session key is gone, every other id names the row it named
    before, and the answer is a redirect to /signup. *)
Theorem delete_user_removes (req : Request) (w : World) (u : User.t) :
  logged_in_as w u →
  fresh_session w →
  validate_on_submit ForValidationForm req = true →
  (handle_request (delete_user req) w).1 = Ret (Some (Redirect "/signup")) ∧
  session_curr_user (handle_request (delete_user req) w).2 = None ∧
  user_get (db (handle_request (delete_user req) w).2) (User.id u) = None ∧
  ∀ k, k ≠ User.id u →
       user_get (db (handle_request (delete_user req) w).2) k = user_get (db w) k.
Proof.
  intros Hu Hfresh Hform. unfold fresh_session in Hfresh.
  rewrite !(handle_request_after _ _ _ (add_user_to_g_logged_in _ _ Hu)).
  unfold delete_user, do_logout, db_session_delete_user, db_session_commit.
  run_monad. rewrite Hform. simpl.
  rewrite unique_violation_subset; simpl.
  - rewrite Hfresh. unfold user_get. simpl.
    repeat split; [|intros k Hk]; rewrite user_get_filter;
      [by rewrite decide_True | by rewrite decide_False].
  - intros x Hx. apply list_elem_of_filter in Hx as [_ Hx]. by rewrite <- Hfresh.
Qed.

Lemma delete_user_removes_witness :
  logged_in_as (Sample.world_liked (Some 2)) Sample.bob ∧
  fresh_session (Sample.world_liked (Some 2)) ∧
  validate_on_submit ForValidationForm (Sample.post true) = true ∧
  user_get (db (handle_request (delete_user (Sample.post true))
                               (Sample.world_liked (Some 2))).2)
           (User.id Sample.bob)
  = None.
Proof.
  assert (H : logged_in_as (Sample.world_liked (Some 2)) Sample.bob)
    by (exists 2; split; reflexivity).
  split; [exact H|]. split; [reflexivity|]. split; [reflexivity|].
  apply (delete_user_removes (Sample.post true) (Sample.world_liked (Some 2))
           Sample.bob H eq_refl eq_refl).
Defined.

(** ** Signing up *)

Lemma find_snoc {A} (f : A → bool) (l : list A) (a : A) :
  List.find f (l ++ [a])
  = match List.find f l with
    | Some y => Some y
    | None => if f a then Some a else None
    end.
Proof.
  induction l as [|x l IH]; simpl; [done|]. by destruct (f x).
Qed.

Lemma find_all_false {A} (f : A → bool) (l : list A) :
  (∀ x, x ∈ l → f x = false) → List.find f l = None.
Proof.
  induction l as [|x l IH]; intros H; simpl; [done|].
  rewrite (H x) by apply list_elem_of_here.
  apply IH. intros y Hy. apply H. by apply list_elem_of_further.
Qed.

Lemma unique_violation_signup_free (d : DB) (new : User.t)
    (ms : list Message.t) (fs ls : list (Z * Z)) :
  (∀ v, v ∈ users d →
        User.username v ≠ User.username new ∧ User.email v ≠ User.email new) →
  unique_violation d (mkDB (users d ++ [new]) ms fs ls) = false.
Proof.
  intros Hfree. apply not_true_is_false. intros H.
  unfold unique_violation in H. simpl in H.
  apply existsb_exists in H as (u & Hu & H).
  apply andb_prop in H as [Hnew H].
  apply negb_true_iff, bool_decide_eq_false_1 in Hnew.
  apply list_elem_of_In, elem_of_app in Hu as [Hu|Hu]; [done|].
  apply list_elem_of_singleton in Hu as ->.
  apply existsb_exists in H as (v & Hv & H).
  apply andb_prop in H as [Hid Hsame].
  apply negb_true_iff, Z.eqb_neq in Hid.
  apply list_elem_of_In, elem_of_app in Hv as [Hv|Hv].
  - destruct (Hfree v Hv) as [Hname Hmail].
    apply orb_prop in Hsame as [Hsame|Hsame]; apply String.eqb_eq in Hsame; congruence.
  - apply list_elem_of_singleton in Hv as ->. done.
Qed.

(** X6.  A signup whose form validates and whose username and email are
    both free stores exactly one new user row, with a fresh id and the
    hashed password, leaves the other tables alone, logs the new user in and
    redirects to /.  If the hash checks against the password it was made
    from, the same credentials authenticate the new user afterwards. *)
Theorem signup_success
    (generate_password_hash : string → string)
    (check_password_hash : string → string → bool)
    (image_url_default header_image_url_default : string)
    (req : Request) (w : World) :
  fresh_session w →
  validate_on_submit UserAddForm req = true →
  (∀ v, v ∈ users (db w) →
        User.username v ≠ form_username req ∧ User.email v ≠ form_email req) →
  let new :=
    User.mk (next_id (User.id <$> users (db w)))
            (form_username req) (form_email req)
            (generate_password_hash (form_password req))
            (or_default (form_image_url req) image_url_default)
            header_image_url_default "" "" in
  let response :=
    handle_request
      (signup generate_password_hash image_url_default header_image_url_default req) w in
  response.1 = Ret (Some (Redirect "/")) ∧
  users (db response.2) = (users (db w) ++ [new])%list ∧
  messages (db response.2) = messages (db w) ∧
  follows (db response.2) = follows (db w) ∧
  likes (db response.2) = likes (db w) ∧
  logged_in_as response.2 new ∧
  (check_password_hash (generate_password_hash (form_password req)) (form_password req)
   = true →
   User_authenticate check_password_hash (db response.2)
                     (form_username req) (form_password req) = Some new).
Proof.
  intros Hfresh Hform Hfree. simpl. unfold fresh_session in Hfresh.
  destruct (add_user_to_g_sets_g w) as [g Hg].
  rewrite !(handle_request_after _ _ _ Hg).
  unfold signup, try_except, User_signup, db_session_commit, do_login. run_monad.
  rewrite Hform. simpl. rewrite Hfresh.
  rewrite unique_violation_signup_free by done. simpl.
  repeat split.
  - eexists. split; [done|]. unfold user_get. simpl.
    rewrite find_snoc, find_all_false; [by rewrite Z.eqb_refl|].
    intros x Hx. apply Z.eqb_neq.
    pose proof (next_id_fresh (User.id <$> users (db w)) (User.id x)
                  (list_elem_of_fmap_2 _ _ _ Hx)). lia.
  - intros Hcheck. unfold User_authenticate. simpl.
    rewrite find_snoc, find_all_false; simpl.
    + rewrite String.eqb_refl. simpl. by rewrite Hcheck.
    + intros x Hx. apply String.eqb_neq. by apply Hfree.
Qed.

Lemma signup_success_witness :
  fresh_session (Sample.world None) ∧
  validate_on_submit UserAddForm (Sample.post true) = true ∧
  users (db (handle_request
               (signup Sample.generate_password_hash "/default.png" "/hero.jpg"
                       (Sample.post true))
               (Sample.world None)).2)
  = [Sample.alice; Sample.bob;
     User.mk 3 "carol" "carol@example.com" "hash:cherry" "/default.png" "/hero.jpg" "" ""].
Proof.
  split; [reflexivity|]. split; [reflexivity|].
  apply (signup_success Sample.generate_password_hash Sample.check_password_hash
           "/default.png" "/hero.jpg" (Sample.post true) (Sample.world None)
           eq_refl eq_refl).
  intros v Hv. simpl in Hv.
  apply elem_of_cons in Hv as [->|Hv]; [by split|].
  apply list_elem_of_singleton in Hv as ->. by split.
Defined.

(** ** Following and unfollowing *)


Lemma stop_following_run (w : World) (u f : User.t) (follow_id : Z) (req : Request) :
  logged_in_as w u →
  users (db_session w) = users (db w) →
  validate_on_submit ForValidationForm req = true →
  user_get (db_session w) follow_id = Some f →
  (User.id u, follow_id) ∈ follows (db_session w) →
  handle_request (stop_following follow_id req) w
  = (Ret (Some (Redirect (user_url u +:+ "/following"))),
     committed
       (set_db_session
          (mkDB (users (db_session w)) (messages (db_session w))
                (remove_first (User.id u, follow_id) (follows (db_session w)))
                (likes (db_session w)))
          (set_g_user (Some u) w))).
Proof.
  intros Hu Husers Hform Hf Hin.
  rewrite (handle_request_after _ _ _ (add_user_to_g_logged_in _ _ Hu)).
  unfold stop_following, User_query_get, following_remove, db_session_commit.
  run_monad. rewrite Hform. simpl. rewrite Hf. simpl.
  rewrite (proj2 (is_following_iff _ u f follow_id Hf) Hin). simpl.
  rewrite unique_violation_same_users by done.
  by rewrite (user_get_id _ _ _ Hf).
Qed.

Lemma remove_first_app_Permutation (e : Z * Z) (l : list (Z * Z)) :
  remove_first e (l ++ [e]) ≡ₚ l.
Proof.
  apply (Permutation_app_inv_r [e]).
  rewrite <- remove_first_Permutation; [done|].
  apply elem_of_app. right. by apply list_elem_of_singleton.
Qed.

(** X7.  Following a stored user whom the logged-in user does not follow
    yet, and then unfollowing them, each with a validated token, succeeds
    both times and brings the follow rows back to exactly what they were:
    first the row (user, followed) is appended, then it is removed again.
    Users, messages and likes are not touched. *)
Theorem follow_then_unfollow (w : World) (u f : User.t) (follow_id : Z)
    (req1 req2 : Request) :
  logged_in_as w u →
  fresh_session w →
  validate_on_submit ForValidationForm req1 = true →
  validate_on_submit ForValidationForm req2 = true →
  user_get (db_session w) follow_id = Some f →
  (User.id u, follow_id) ∉ follows (db w) →
  ∃ w1 w2,
    handle_request (add_follow follow_id req1) w
    = (Ret (Some (Redirect (user_url u +:+ "/following"))), w1) ∧
    follows (db w1) = (follows (db w) ++ [(User.id u, follow_id)])%list ∧
    handle_request (stop_following follow_id req2) w1
    = (Ret (Some (Redirect (user_url u +:+ "/following"))), w2) ∧
    follows (db w2) = follows (db w) ∧
    users (db w2) = users (db w) ∧
    messages (db w2) = messages (db w) ∧
    likes (db w2) = likes (db w).
Proof.
  intros Hu Hfresh Hform1 Hform2 Hf Hnot. unfold fresh_session in Hfresh.
  assert (Husers : users (db_session w) = users (db w)) by (by rewrite Hfresh).
  eexists _, _. split; [by apply (add_follow_run _ u f)|].
  destruct Hu as (k & Hk & Hu).
  rewrite Hfresh in Hf, Hu |- *.
  destruct (decide _) as [Hin|_]; [exfalso; exact (Hnot Hin)|].
  split; [done|].
  split.
  { apply (stop_following_run _ u f); [| done | done | done |].
    - by exists k.
    - simpl. apply elem_of_app. right. by apply list_elem_of_singleton. }
  simpl. repeat split. by apply remove_first_app_fresh.
Qed.

Lemma follow_then_unfollow_witness :
  ∃ w1 w2,
    handle_request (add_follow 2 (Sample.post true)) (Sample.world_liked (Some 1))
    = (Ret (Some (Redirect "/users/1/following")), w1) ∧
    follows (db w1) = [(2, 1); (1, 2)] ∧
    handle_request (stop_following 2 (Sample.post true)) w1
    = (Ret (Some (Redirect "/users/1/following")), w2) ∧
    follows (db w2) = [(2, 1)] ∧
    users (db w2) = users Sample.database_liked ∧
    messages (db w2) = messages Sample.database_liked ∧
    likes (db w2) = likes Sample.database_liked.
Proof.
  apply (follow_then_unfollow (Sample.world_liked (Some 1)) Sample.alice Sample.bob 2
           (Sample.post true) (Sample.post true)).
  - exists 1. split; reflexivity.
  - reflexivity.
  - reflexivity.
  - reflexivity.
  - reflexivity.
  - simpl. intros Hin. apply list_elem_of_singleton in Hin. discriminate Hin.
Defined.

(** X8.  Unfollowing a stored user whom the logged-in user does not follow
    is not a no-op: [following.remove] raises, so the request ends in
    [ValueError] with nothing changed and nothing committed. *)
Theorem stop_following_not_followed (w : World) (u f : User.t) (follow_id : Z)
    (req : Request) :
  logged_in_as w u →
  validate_on_submit ForValidationForm req = true →
  user_get (db_session w) follow_id = Some f →
  (User.id u, follow_id) ∉ follows (db_session w) →
  handle_request (stop_following follow_id req) w
  = (Raise ValueError, set_g_user (Some u) w).
Proof.
  intros Hu Hform Hf Hnot.
  rewrite (handle_request_after _ _ _ (add_user_to_g_logged_in _ _ Hu)).
  unfold stop_following, User_query_get, following_remove.
  run_monad. rewrite Hform. simpl. rewrite Hf. simpl.
  destruct (existsb _ _) eqn:Hex; [|done].
  by apply (is_following_iff _ u f follow_id Hf) in Hex.
Qed.

Lemma stop_following_not_followed_witness :
  logged_in_as (Sample.world_liked (Some 1)) Sample.alice ∧
  user_get Sample.database_liked 2 = Some Sample.bob ∧
  ((1, 2) ∉ follows Sample.database_liked) ∧
  handle_request (stop_following 2 (Sample.post true)) (Sample.world_liked (Some 1))
  = (Raise ValueError, set_g_user (Some Sample.alice) (Sample.world_liked (Some 1))).
Proof.
  assert (H : logged_in_as (Sample.world_liked (Some 1)) Sample.alice)
    by (exists 1; split; reflexivity).
  assert (Hnot : (User.id Sample.alice, 2) ∉ follows (db_session (Sample.world_liked (Some 1)))).
  { simpl. intros Hin. apply list_elem_of_singleton in Hin. discriminate Hin. }
  split; [exact H|]. split; [reflexivity|]. split; [exact Hnot|].
  apply (stop_following_not_followed (Sample.world_liked (Some 1)) Sample.alice
           Sample.bob 2 (Sample.post true) H eq_refl eq_refl Hnot).
Defined.

(** ** Posting a message and what the homepage shows *)



(** X9.  The homepage of a logged-in user shows the newest messages there
    are: as many as there are messages by the user or by the users they
    follow, up to 100, and every such message that is left out is no newer
    than each message that is shown. *)
Theorem homepage_newest (w : World) (u : User.t) :
  logged_in_as w u →
  ∃ shown liked_msg_ids,
    handle_request homepage w
    = (Ret (Some (Render "home.html" (WithMessages shown liked_msg_ids))),
       set_g_user (Some u) w) ∧
    length shown
    = (100 `min`
       length (filter (λ m, Message.user_id m ∈ User.id <$> following (db_session w) u ∨
                            Message.user_id m = User.id u)
                      (messages (db_session w))))%nat ∧
    ∀ m, m ∈ messages (db_session w) →
         Message.user_id m ∈ User.id <$> following (db_session w) u ∨
         Message.user_id m = User.id u →
         m ∈ shown ∨ ∀ s, s ∈ shown → Message.timestamp m ≤ Message.timestamp s.
Proof.
  intros Hu. eexists (homepage_query (db_session w) u), _.
  split; [by as_user Hu|].
  split; [apply homepage_query_count | apply homepage_query_cut].
Qed.

Lemma homepage_newest_witness :
  logged_in_as (Sample.world_liked (Some 2)) Sample.bob ∧
  ∃ shown liked_msg_ids,
    handle_request homepage (Sample.world_liked (Some 2))
    = (Ret (Some (Render "home.html" (WithMessages shown liked_msg_ids))),
       set_g_user (Some Sample.bob) (Sample.world_liked (Some 2))) ∧
    length shown = 2%nat.
Proof.
  assert (H : logged_in_as (Sample.world_liked (Some 2)) Sample.bob)
    by (exists 2; split; reflexivity).
  split; [exact H|].
  destruct (homepage_newest (Sample.world_liked (Some 2)) Sample.bob H)
    as (shown & liked & Hrun & Hcount & _).
  exists shown, liked. split; [exact Hrun|]. rewrite Hcount. reflexivity.
Defined.

Lemma message_get_snoc_fresh (l : list Message.t) (new : Message.t) :
  Message.id new = next_id (Message.id <$> l) →
  List.find (λ m, Message.id m =? Message.id new) (l ++ [new]) = Some new ∧
  ∀ k, k ≠ Message.id new →
       List.find (λ m, Message.id m =? k) (l ++ [new])
       = List.find (λ m, Message.id m =? k) l.
Proof.
  intros Hid. split.
  - rewrite find_snoc, find_all_false; [by rewrite Z.eqb_refl|].
    intros x Hx. apply Z.eqb_neq. rewrite Hid.
    pose proof (next_id_fresh (Message.id <$> l) (Message.id x)
                  (list_elem_of_fmap_2 _ _ _ Hx)). lia.
  - intros k Hk. rewrite find_snoc.
    destruct (List.find _ l); [done|].
    destruct (Z.eqb_spec (Message.id new) k); [congruence|done].
Qed.

(** X10.  A logged-in POST to /messages/new whose form validates stores one
    new message: its text is the submitted one, its author the current user,
    its id fresh.  Looking that id up afterwards gives the new message, every
    other id gives what it gave before, and when the message is strictly
    newer than all stored ones the author's homepage shows it. *)
Theorem messages_add_stores (req : Request) (w : World) (u : User.t) :
  logged_in_as w u →
  fresh_session w →
  validate_on_submit MessageForm req = true →
  let new :=
    Message.mk (next_id (Message.id <$> messages (db w)))
               (form_text req) (now req) (User.id u) in
  let response := handle_request (messages_add req) w in
  response.1 = Ret (Some (Redirect (user_url u))) ∧
  db response.2
  = mkDB (users (db w)) (messages (db w) ++ [new]) (follows (db w)) (likes (db w)) ∧
  message_get (db response.2) (Message.id new) = Some new ∧
  (∀ k, k ≠ Message.id new → message_get (db response.2) k = message_get (db w) k) ∧
  ((∀ m, m ∈ messages (db w) → Message.timestamp m < now req) →
   new ∈ homepage_query (db response.2) u).
Proof.
  intros Hu Hfresh Hform. simpl. unfold fresh_session in Hfresh.
  rewrite !(handle_request_after _ _ _ (add_user_to_g_logged_in _ _ Hu)).
  unfold messages_add, messages_append, db_session_commit.
  run_monad. rewrite Hform. simpl.
  rewrite unique_violation_same_users by (by rewrite Hfresh).
  simpl. rewrite Hfresh.
  set (new := Message.mk _ _ _ _).
  set (d' := mkDB _ _ _ _).
  destruct (message_get_snoc_fresh (messages (db w)) new eq_refl) as [Hnew Hold].
  repeat split; [done..|]. intros Hnewest.
  assert (Hin : new ∈ messages d').
  { simpl. apply elem_of_app. right. by apply list_elem_of_singleton. }
  destruct (homepage_query_cut d' u new Hin) as [?|Hcut]; [by right | done |].
  pose proof (homepage_query_count d' u) as Hcount.
  destruct (homepage_query d' u) as [|s shown] eqn:Hshown.
  - simpl in Hcount.
    assert (Hel : new ∈ filter (λ m, Message.user_id m ∈ User.id <$> following d' u ∨
                                     Message.user_id m = User.id u) (messages d'))
      by (apply list_elem_of_filter; split; [by right | done]).
    destruct (filter _ _); [by apply elem_of_nil in Hel | simpl in Hcount; lia].
  - assert (Hs : s ∈ homepage_query d' u) by (rewrite Hshown; apply list_elem_of_here).
    specialize (Hcut s (list_elem_of_here _ _)).
    apply homepage_query_elem in Hs as [Hs _]. simpl in Hs.
    apply elem_of_app in Hs as [Hs|Hs].
    + specialize (Hnewest s Hs). simpl in Hcut. lia.
    + apply list_elem_of_singleton in Hs as ->. apply list_elem_of_here.
Qed.

Lemma messages_add_stores_witness :
  logged_in_as (Sample.world (Some 1)) Sample.alice ∧
  fresh_session (Sample.world (Some 1)) ∧
  validate_on_submit MessageForm (Sample.post true) = true ∧
  message_get (db (handle_request (messages_add (Sample.post true))
                                  (Sample.world (Some 1))).2) 21
  = Some (Message.mk 21 "hi" 300 1).
Proof.
  assert (H : logged_in_as (Sample.world (Some 1)) Sample.alice)
    by (exists 1; split; reflexivity).
  split; [exact H|]. split; [reflexivity|]. split; [reflexivity|].
  apply (messages_add_stores (Sample.post true) (Sample.world (Some 1)) Sample.alice
           H eq_refl eq_refl).
Defined.

Lemma homepage_query_all (d : DB) (u : User.t) (m : Message.t) :
  (length (messages d) ≤ 100)%nat →
  m ∈ messages d →
  Message.user_id m ∈ User.id <$> following d u ∨ Message.user_id m = User.id u →
  m ∈ homepage_query d u.
Proof.
  intros Hfew Hin Hwho. unfold homepage_query.
  rewrite take_ge.
  - rewrite merge_sort_Permutation. by apply list_elem_of_filter.
  - rewrite merge_sort_Permutation.
    etrans; [apply length_filter | done].
Qed.

(** X11.  After a logged-in user has followed a stored user with a validated
    token, that user's messages count for the follower's homepage: each of
    them is shown, or is no newer than every message shown; with at most 100
    stored messages each of them is shown. *)
Theorem follow_shows_messages (w : World) (u f : User.t) (follow_id : Z)
    (req : Request) (m : Message.t) :
  logged_in_as w u →
  fresh_session w →
  validate_on_submit ForValidationForm req = true →
  user_get (db_session w) follow_id = Some f →
  m ∈ messages (db w) →
  Message.user_id m = follow_id →
  let after := db (handle_request (add_follow follow_id req) w).2 in
  (m ∈ homepage_query after u ∨
   ∀ s, s ∈ homepage_query after u → Message.timestamp m ≤ Message.timestamp s) ∧
  ((length (messages (db w)) ≤ 100)%nat → m ∈ homepage_query after u).
Proof.
  intros Hu Hfresh Hform Hf Hm Hauthor. simpl. unfold fresh_session in Hfresh.
  rewrite (add_follow_run w u f follow_id req Hu) by (done || by rewrite Hfresh).
  simpl. rewrite Hfresh in *.
  set (after := if decide _ then _ else _).
  assert (Hafter : messages after = messages (db w) ∧
                   users after = users (db w) ∧
                   (User.id u, follow_id) ∈ follows after).
  { unfold after. destruct (decide _) as [Hin|Hnot]; simpl; [done|].
    repeat split. apply elem_of_app. right. by apply list_elem_of_singleton. }
  destruct Hafter as (Hmessages & Husers & Hedge).
  assert (Hfollowed : Message.user_id m ∈ User.id <$> following after u).
  { rewrite Hauthor, <- (user_get_id _ _ _ Hf).
    apply list_elem_of_fmap_2, following_edge.
    rewrite (user_get_id _ _ _ Hf). split; [done|].
    unfold user_get in *. by rewrite Husers. }
  split.
  - apply homepage_query_cut; [by rewrite Hmessages | by left].
  - intros Hfew. apply homepage_query_all; [by rewrite Hmessages.. | by left].
Qed.

Lemma follow_shows_messages_witness :
  logged_in_as (Sample.world (Some 1)) Sample.alice ∧
  user_get (db_session (Sample.world (Some 1))) 2 = Some Sample.bob ∧
  Sample.bob_msg
  ∈ homepage_query (db (handle_request (add_follow 2 (Sample.post true))
                                       (Sample.world (Some 1))).2) Sample.alice.
Proof.
  assert (H : logged_in_as (Sample.world (Some 1)) Sample.alice)
    by (exists 1; split; reflexivity).
  split; [exact H|]. split; [reflexivity|].
  apply (follow_shows_messages (Sample.world (Some 1)) Sample.alice Sample.bob 2
           (Sample.post true) Sample.bob_msg H eq_refl eq_refl eq_refl).
  - simpl. apply list_elem_of_further, list_elem_of_here.
  - reflexivity.
  - simpl. lia.
Defined.

(** X12.  After a logged-in user has unfollowed somebody else with a
    validated token, and the follow rows held each pair once, none of that
    user's messages is on the homepage any more. *)
Theorem unfollow_hides_messages (w : World) (u f : User.t) (follow_id : Z)
    (req : Request) :
  logged_in_as w u →
  fresh_session w →
  validate_on_submit ForValidationForm req = true →
  user_get (db_session w) follow_id = Some f →
  (User.id u, follow_id) ∈ follows (db w) →
  NoDup (follows (db w)) →
  follow_id ≠ User.id u →
  ∀ m, m ∈ homepage_query (db (handle_request (stop_following follow_id req) w).2) u →
       Message.user_id m ≠ follow_id.
Proof.
  intros Hu Hfresh Hform Hf Hin Hnodup Hother m. unfold fresh_session in Hfresh.
  rewrite (stop_following_run w u f follow_id req Hu)
    by (done || by rewrite Hfresh).
  simpl. rewrite Hfresh. intros Hm.
  apply homepage_query_elem in Hm as [_ [Hself|(f' & Hf' & Hauthor)]]; [congruence|].
  apply following_edge in Hf' as [Hedge _]. simpl in Hedge.
  intros Heq. rewrite <- Hauthor, Heq in Hedge.
  by apply (remove_first_NoDup (User.id u, follow_id)) in Hnodup.
Qed.

Lemma unfollow_hides_messages_witness :
  logged_in_as (Sample.world_liked (Some 2)) Sample.bob ∧
  ((2, 1) ∈ follows Sample.database_liked) ∧
  ∀ m, m ∈ homepage_query
             (db (handle_request (stop_following 1 (Sample.post true))
                                 (Sample.world_liked (Some 2))).2) Sample.bob →
       Message.user_id m ≠ 1.
Proof.
  assert (H : logged_in_as (Sample.world_liked (Some 2)) Sample.bob)
    by (exists 2; split; reflexivity).
  assert (Hin : (User.id Sample.bob, 1) ∈ follows (db (Sample.world_liked (Some 2))))
    by apply list_elem_of_here.
  split; [exact H|]. split; [exact Hin|].
  apply (unfollow_hides_messages (Sample.world_liked (Some 2)) Sample.bob Sample.alice 1
           (Sample.post true) H eq_refl eq_refl eq_refl Hin).
  - apply (bool_decide_unpack _). vm_compute. exact I.
  - simpl. lia.
Defined.

(** ** Editing the profile *)

(** X13.  A logged-in POST to /users/profile whose form validates but whose
    password does not authenticate the current user changes nothing: it
    flashes "Unauthorized!" and renders the edit form again. *)
Theorem profile_wrong_password (check_password_hash : string → string → bool)
    (image_url_default header_image_url_default : string)
    (req : Request) (w : World) (u : User.t) :
  logged_in_as w u →
  validate_on_submit UserUpdateForm req = true →
  User_authenticate check_password_hash (db_session w)
                    (User.username u) (form_password req) = None →
  handle_request
    (profile check_password_hash image_url_default header_image_url_default req) w
  = (Ret (Some (Render "users/edit.html" (WithForm UserUpdateForm))),
     add_flash "Unauthorized!" "danger" (set_g_user (Some u) w)).
Proof.
  intros Hu Hform Hauth.
  rewrite (handle_request_after _ _ _ (add_user_to_g_logged_in _ _ Hu)).
  unfold profile. run_monad. by rewrite Hform, Hauth.
Qed.

Lemma profile_wrong_password_witness :
  logged_in_as (Sample.world (Some 1)) Sample.alice ∧
  validate_on_submit UserUpdateForm (Sample.post true) = true ∧
  User_authenticate Sample.check_password_hash Sample.database "alice" "cherry" = None ∧
  handle_request (profile Sample.check_password_hash "" "" (Sample.post true))
                 (Sample.world (Some 1))
  = (Ret (Some (Render "users/edit.html" (WithForm UserUpdateForm))),
     add_flash "Unauthorized!" "danger"
               (set_g_user (Some Sample.alice) (Sample.world (Some 1)))).
Proof.
  assert (H : logged_in_as (Sample.world (Some 1)) Sample.alice)
    by (exists 1; split; reflexivity).
  split; [exact H|]. split; [reflexivity|]. split; [reflexivity|].
  apply (profile_wrong_password Sample.check_password_hash "" "" (Sample.post true)
           (Sample.world (Some 1)) Sample.alice H eq_refl eq_refl).
Defined.

Lemma user_get_replace (l : list User.t) (uid : Z) (u' : User.t) (k : Z) :
  User.id u' = uid →
  List.find (λ x, User.id x =? k)
            ((λ x, if User.id x =? uid then u' else x) <$> l)
  = (λ x, if User.id x =? uid then u' else x)
      <$> List.find (λ x, User.id x =? k) l.
Proof.
  intros Hid. induction l as [|a l IH]; [done|]. rewrite fmap_cons. simpl.
  destruct (Z.eqb_spec (User.id a) uid) as [Heq|Hne]; simpl.
  - rewrite Hid, Heq. destruct (uid =? k); simpl; [|exact IH].
    by rewrite Heq, Z.eqb_refl.
  - destruct (User.id a =? k); simpl; [|exact IH].
    by rewrite (proj2 (Z.eqb_neq _ _) Hne).
Qed.

(** X14.  Whatever a logged-in user posts to /users/profile, the request
    writes to no row but the user's own, and never to its id, password or
    location: afterwards every other id names the row it named before, the
    user's id names a row with the same id, password and location, and
    messages, follow rows and like rows are as they were. *)
Theorem profile_keeps_identity (check_password_hash : string → string → bool)
    (image_url_default header_image_url_default : string)
    (req : Request) (w : World) (u : User.t) :
  logged_in_as w u →
  fresh_session w →
  let after :=
    db (handle_request
          (profile check_password_hash image_url_default header_image_url_default req)
          w).2 in
  (∀ k, k ≠ User.id u → user_get after k = user_get (db w) k) ∧
  (∃ row, user_get after (User.id u) = Some row ∧
          User.id row = User.id u ∧
          User.password row = User.password u ∧
          User.location row = User.location u) ∧
  messages after = messages (db w) ∧
  follows after = follows (db w) ∧
  likes after = likes (db w).
Proof.
  intros Hu Hfresh. simpl. unfold fresh_session in Hfresh.
  rewrite !(handle_request_after _ _ _ (add_user_to_g_logged_in _ _ Hu)).
  destruct Hu as (k0 & _ & Hu). pose proof (user_get_id _ _ _ Hu) as <-.
  rewrite Hfresh in Hu.
  assert (Hsame : (∀ k, k ≠ User.id u → user_get (db w) k = user_get (db w) k) ∧
                  (∃ row, user_get (db w) (User.id u) = Some row ∧
                          User.id row = User.id u ∧
                          User.password row = User.password u ∧
                          User.location row = User.location u) ∧
                  messages (db w) = messages (db w) ∧
                  follows (db w) = follows (db w) ∧
                  likes (db w) = likes (db w))
    by (repeat split; by exists u).
  unfold profile, g_user_assign, db_session_commit. run_monad.
  destruct (validate_on_submit UserUpdateForm req); simpl; [|done].
  destruct (bool_decide _); simpl; [|done].
  destruct (unique_violation _ _); simpl; [done|].
  rewrite Hfresh. unfold user_get in *. simpl.
  split; [|split; [|done]].
  - intros k Hk. rewrite user_get_replace by done.
    destruct (List.find (λ x, User.id x =? k) (users (db w))) as [x|] eqn:Hx;
      [|done]. simpl.
    apply find_some in Hx as [_ Hx]. apply Z.eqb_eq in Hx.
    by rewrite (proj2 (Z.eqb_neq (User.id x) (User.id u))) by congruence.
  - eexists. rewrite user_get_replace by done. simpl. rewrite Hu. simpl.
    rewrite Z.eqb_refl. done.
Qed.

Lemma profile_keeps_identity_witness :
  logged_in_as (Sample.world (Some 1)) Sample.alice ∧
  fresh_session (Sample.world (Some 1)) ∧
  user_get
    (db (handle_request
           (profile Sample.check_password_hash "/default.png" "/hero.jpg"
              (mkRequest POST true true "alicia" "apple" "alicia@example.com"
                         "" "" "new bio" "" None 0))
           (Sample.world (Some 1))).2) 2
  = Some Sample.bob.
Proof.
  assert (H : logged_in_as (Sample.world (Some 1)) Sample.alice)
    by (exists 1; split; reflexivity).
  split; [exact H|]. split; [reflexivity|].
  apply (profile_keeps_identity Sample.check_password_hash "/default.png" "/hero.jpg"
           (mkRequest POST true true "alicia" "apple" "alicia@example.com"
                      "" "" "new bio" "" None 0)
           (Sample.world (Some 1)) Sample.alice H eq_refl).
  simpl. lia.
Defined.

(** ** The routes that only read *)

(** X15.  The views behind the GET-only routes (/users/<id>,
    /users/<id>/following, /users/<id>/followers, /users/<id>/likes,
    /messages/<id> and /) never write: whoever asks and whatever the id, the
    committed database, the unit of work and the logged-in user of the
    session are the same after the request as before. *)
Theorem read_routes_never_write (k : Z) (w : World) (v : M (option Response)) :
  v ∈ [users_show k; show_following k; users_followers k; show_user_likes k;
       messages_show k; homepage] →
  db (handle_request v w).2 = db w ∧
  db_session (handle_request v w).2 = db_session w ∧
  session_curr_user (handle_request v w).2 = session_curr_user w.
Proof.
  intros Hv.
  destruct (add_user_to_g_sets_g w) as [g Hg].
  rewrite !(handle_request_after _ _ _ Hg).
  repeat (apply elem_of_cons in Hv as [->|Hv]); [..|by apply elem_of_nil in Hv];
    unfold users_show, show_following, users_followers, show_user_likes,
      messages_show, homepage, unauthorized, User_query_get_or_404,
      User_query_get, Message_query_get;
    run_monad;
    destruct g; simpl; try done;
    by destruct (user_get (db_session w) k).
Qed.

Lemma read_routes_never_write_witness :
  db (handle_request (users_followers 1) (Sample.world_liked (Some 2))).2
  = Sample.database_liked.
Proof.
  apply (read_routes_never_write 1 (Sample.world_liked (Some 2)) (users_followers 1)).
  apply list_elem_of_further, list_elem_of_further, list_elem_of_here.
Defined.

(** ** Primary keys *)

Lemma NoDup_ids_filter {A} (key : A → Z) (P : A → Prop) `{∀ x, Decision (P x)}
    (l : list A) :
  NoDup (key <$> l) → NoDup (key <$> filter P l).
Proof.
  intros Hl. apply (sublist_NoDup _ (key <$> l)); [done|].
  apply fmap_sublist, sublist_filter.
Qed.

Lemma NoDup_ids_snoc {A} (key : A → Z) (l : list A) (new : A) :
  key new = next_id (key <$> l) →
  NoDup (key <$> l) → NoDup (key <$> (l ++ [new])%list).
Proof.
  intros Hnew Hl. rewrite fmap_app. apply NoDup_app.
  split; [done|]. split; [|apply NoDup_singleton].
  intros x Hx Hin. apply list_elem_of_singleton in Hin.
  apply next_id_fresh in Hx. simpl in Hin. lia.
Qed.

Lemma ids_replace (l : list User.t) (uid : Z) (u' : User.t) :
  User.id u' = uid →
  User.id <$> ((λ x, if User.id x =? uid then u' else x) <$> l) = User.id <$> l.
Proof.
  intros Hid. rewrite <- list_fmap_compose. apply list_fmap_ext.
  intros i x _. simpl. destruct (Z.eqb_spec (User.id x) uid); congruence.
Qed.

Ltac keep_keys Hfresh :=
  simpl; rewrite ?Hfresh;
  first [ done
        | split; first [ done
                       | by apply NoDup_ids_filter
                       | by apply NoDup_ids_snoc
                       | by rewrite ids_replace ];
          first [ done
                | by apply NoDup_ids_filter
                | by apply NoDup_ids_snoc ] ].

(** X16.  No request to /signup or to one of the eight writing routes ever
    makes two stored users, or two stored messages, share an id: if the ids
    are pairwise different before the request, they are so after it, whether
    the view returns, returns nothing or raises. *)
Theorem primary_keys_stay_unique
    (generate_password_hash : string → string)
    (check_password_hash : string → string → bool)
    (image_url_default header_image_url_default : string)
    (req : Request) (w : World) (v : M (option Response)) :
  v = signup generate_password_hash image_url_default header_image_url_default req ∨
  (∃ r, v = view check_password_hash image_url_default header_image_url_default r req) →
  fresh_session w →
  NoDup (User.id <$> users (db w)) →
  NoDup (Message.id <$> messages (db w)) →
  NoDup (User.id <$> users (db (handle_request v w).2)) ∧
  NoDup (Message.id <$> messages (db (handle_request v w).2)).
Proof.
  intros Hv Hfresh Husers Hmessages. unfold fresh_session in Hfresh.
  destruct (add_user_to_g_sets_g w) as [g Hg].
  rewrite !(handle_request_after _ _ _ Hg).
  destruct Hv as [->|[r ->]].
  - unfold signup, try_except, User_signup, db_session_commit, do_login. run_monad.
    destruct (validate_on_submit UserAddForm req); simpl; [|done].
    destruct (unique_violation _ _); keep_keys Hfresh.
  - destruct r; unfold view; enter_view;
      unfold _handle_like_unlike, User_query_get_or_404, Message_query_get_or_404,
        User_query_get, Message_query_get, following_append, following_remove,
        liked_messages_append, liked_messages_remove, messages_append,
        db_session_delete_message, db_session_delete_user, g_user_assign,
        db_session_commit;
      run_monad; repeat (case_match; simpl in *; simplify_eq);
      keep_keys Hfresh.
Qed.

Lemma primary_keys_stay_unique_witness :
  fresh_session (Sample.world (Some 1)) ∧
  NoDup (Message.id <$>
         messages (db (handle_request
                         (view Sample.check_password_hash "" "" POST_messages_new
                               (Sample.post true))
                         (Sample.world (Some 1))).2)).
Proof.
  split; [reflexivity|].
  apply (primary_keys_stay_unique Sample.generate_password_hash
           Sample.check_password_hash "" "" (Sample.post true) (Sample.world (Some 1))).
  - right. by exists POST_messages_new.
  - reflexivity.
  - apply (bool_decide_unpack _). vm_compute. exact I.
  - apply (bool_decide_unpack _). vm_compute. exact I.
Defined.

(** ** Likes *)

Lemma like_helper_NoDup (w w' : World) (message_id k : Z)
    (o : outcome (option Response)) :
  NoDup (likes (db_session w)) →
  _handle_like_unlike message_id k w = (o, w') →
  NoDup (likes (db_session w')).
Proof.
  intros Hnodup Hrun.
  destruct (g_user w) as [u|] eqn:Hg.
  - destruct (message_get (db_session w) message_id) as [m|] eqn:Hm.
    + by apply (like_toggle_NoDup w w' u m message_id k o).
    + revert Hrun. enter_like. rewrite Hg. simpl. rewrite Hm. simpl.
      by intros [= _ <-].
  - revert Hrun. enter_like. rewrite Hg. by intros [= _ <-].
Qed.

Lemma like_helper_db (w w' : World) (message_id k : Z)
    (o : outcome (option Response)) :
  _handle_like_unlike message_id k w = (o, w') →
  db w' = db w ∨ db w' = db_session w'.
Proof.
  enter_like. intros Hrun.
  repeat (case_match; simpl in *; simplify_eq); auto.
Qed.

(** X17.  The like route never stores the same like row twice: whoever
    posts to /messages/<id>/like, with whatever token and id, if the stored
    like rows are pairwise different before the request they are so after
    it. *)
Theorem like_route_keeps_rows_unique (w : World) (message_id : Z) (req : Request) :
  fresh_session w →
  NoDup (likes (db w)) →
  NoDup (likes (db (handle_request (handle_message_like_unlike message_id req) w).2)).
Proof.
  intros Hfresh Hnodup. unfold fresh_session in Hfresh.
  destruct (add_user_to_g_sets_g w) as [g Hg].
  rewrite (handle_request_after _ _ _ Hg).
  unfold handle_message_like_unlike, unauthorized. run_monad.
  destruct g as [u|]; simpl; [|done].
  destruct (validate_on_submit ForValidationForm req); simpl; [|done].
  destruct (_handle_like_unlike _ _ _) as [o w1] eqn:Hrun.
  assert (Hw1 : NoDup (likes (db w1))).
  { assert (Hsession : NoDup (likes (db_session w1))).
    { apply (like_helper_NoDup _ _ _ _ _) in Hrun; [done|]. simpl. by rewrite Hfresh. }
    destruct (like_helper_db _ _ _ _ _ Hrun) as [->| ->]; done. }
  destruct o as [?|?]; [|done].
  destruct (referrer req) as [r|]; [|done]. by destruct (decide (r = "")).
Qed.

Lemma like_route_keeps_rows_unique_witness :
  fresh_session (Sample.world_liked (Some 1)) ∧
  NoDup (likes (db (handle_request (handle_message_like_unlike 20 (Sample.post true))
                                   (Sample.world_liked (Some 1))).2)).
Proof.
  split; [reflexivity|].
  apply (like_route_keeps_rows_unique (Sample.world_liked (Some 1)) 20 (Sample.post true)).
  - reflexivity.
  - apply (bool_decide_unpack _). vm_compute. exact I.
Defined.

(** X18.  A logged-in POST to /messages/<id>/like with a validated token,
    for a stored message of somebody else that the user does not like yet,
    commits the like row, flashes "message liked!" and redirects to the
    referrer (to / when there is none or it is empty); the user's next
    homepage lists the message id among the liked ones. *)
Theorem like_then_homepage (w : World) (u : User.t) (m : Message.t)
    (message_id : Z) (req : Request) :
  logged_in_as w u →
  fresh_session w →
  validate_on_submit ForValidationForm req = true →
  message_get (db_session w) message_id = Some m →
  Message.user_id m ≠ User.id u →
  (User.id u, message_id) ∉ likes (db_session w) →
  ∃ w1 shown liked_msg_ids,
    handle_request (handle_message_like_unlike message_id req) w
    = (Ret (Some (Redirect (referrer_or_home req))), w1) ∧
    likes (db w1) = (likes (db w) ++ [(User.id u, message_id)])%list ∧
    session_flashes w1 = (session_flashes w ++ [("message liked!", "success")])%list ∧
    (handle_request homepage w1).1
    = Ret (Some (Render "home.html" (WithMessages shown liked_msg_ids))) ∧
    message_id ∈ liked_msg_ids.
Proof.
  intros Hu Hfresh Hform Hm Hother Hnew. unfold fresh_session in Hfresh.
  rewrite (handle_request_after _ _ _ (add_user_to_g_logged_in _ _ Hu)).
  unfold handle_message_like_unlike, referrer_or_home. run_monad.
  rewrite Hform. simpl.
  rewrite (like_step _ u m) by (done || (simpl; by rewrite Hfresh)).
  set (w1 := committed _).
  assert (Hu1 : logged_in_as w1 u) by (destruct Hu as (k & ? & ?); by exists k).
  assert (Hliked : message_id ∈ remove_dups (Message.id <$> liked_messages (db_session w1) u)).
  { apply elem_of_remove_dups, (is_liked_iff _ _ m); [done|].
    simpl. apply elem_of_app. right. by apply list_elem_of_singleton. }
  eexists w1, _, _.
  split; [|split; [simpl; by rewrite Hfresh|split; [done|split; [|exact Hliked]]]].
  - destruct (referrer req) as [r|]; [|done]. by destruct (decide (r = "")).
  - by rewrite (handle_request_after _ _ _ (add_user_to_g_logged_in _ _ Hu1)).
Qed.

Lemma like_then_homepage_witness :
  ∃ w1 shown liked_msg_ids,
    handle_request (handle_message_like_unlike 10 (Sample.post true))
                   (Sample.world (Some 2))
    = (Ret (Some (Redirect "/")), w1) ∧
    likes (db w1) = [(2, 10)] ∧
    session_flashes w1 = [("message liked!", "success")] ∧
    (handle_request homepage w1).1
    = Ret (Some (Render "home.html" (WithMessages shown liked_msg_ids))) ∧
    10 ∈ liked_msg_ids.
Proof.
  apply (like_then_homepage (Sample.world (Some 2)) Sample.bob Sample.alice_msg 10
           (Sample.post true)).
  - exists 2. split; reflexivity.
  - reflexivity.
  - reflexivity.
  - reflexivity.
  - simpl. lia.
  - apply not_elem_of_nil.
Defined.

(** ** Forms that do not validate, on the other writing routes *)

(** X19.  The four writing routes that C10 does not name, for a logged-in
    request whose form does not validate; none of them writes.  A POST to
    /users/stop-following/<id> whose token fails returns nothing; a POST to
    /messages/<id>/delete whose token fails flashes "Action unauthorized!"
    and redirects to /.  /users/profile and /messages/new, which also take
    GET, render their forms when the request is a GET or its token fails. *)
Theorem unvalidated_form_other_routes
    (check_password_hash : string → string → bool)
    (image_url_default header_image_url_default : string)
    (req : Request) (w : World) (u : User.t) (k : Z) :
  logged_in_as w u →
  (method req = POST → csrf_valid req = false →
   handle_request (stop_following k req) w = (Ret None, set_g_user (Some u) w) ∧
   handle_request (messages_destroy k req) w
   = (Ret (Some (Redirect "/")),
      add_flash "Action unauthorized!" "danger" (set_g_user (Some u) w))) ∧
  (method req = GET ∨ csrf_valid req = false →
   handle_request
     (profile check_password_hash image_url_default header_image_url_default req) w
   = (Ret (Some (Render "users/edit.html" (WithForm UserUpdateForm))),
      set_g_user (Some u) w) ∧
   handle_request (messages_add req) w
   = (Ret (Some (Render "messages/new.html" (WithForm MessageForm))),
      set_g_user (Some u) w)).
Proof.
  intros Hu.
  rewrite !(handle_request_after _ _ _ (add_user_to_g_logged_in _ _ Hu)).
  unfold stop_following, messages_destroy, profile, messages_add. run_monad.
  split.
  - intros _ Htoken. by rewrite !(failed_token req Htoken).
  - intros Hreq.
    assert (Hform : ∀ f, validate_on_submit f req = false).
    { intros f. unfold validate_on_submit, is_submitted.
      destruct Hreq as [-> | ->]; destruct f; by rewrite ?andb_false_r. }
    by rewrite !Hform.
Qed.

Lemma unvalidated_form_other_routes_witness :
  logged_in_as (Sample.world (Some 1)) Sample.alice ∧
  method (Sample.post false) = POST ∧
  csrf_valid (Sample.post false) = false ∧
  handle_request (messages_destroy 10 (Sample.post false)) (Sample.world (Some 1))
  = (Ret (Some (Redirect "/")),
     add_flash "Action unauthorized!" "danger"
               (set_g_user (Some Sample.alice) (Sample.world (Some 1)))) ∧
  handle_request (messages_add (Sample.post false)) (Sample.world (Some 1))
  = (Ret (Some (Render "messages/new.html" (WithForm MessageForm))),
     set_g_user (Some Sample.alice) (Sample.world (Some 1))).
Proof.
  assert (H : logged_in_as (Sample.world (Some 1)) Sample.alice)
    by (exists 1; split; reflexivity).
  split; [exact H|]. split; [reflexivity|]. split; [reflexivity|].
  destruct (unvalidated_form_other_routes Sample.check_password_hash "" ""
              (Sample.post false) (Sample.world (Some 1)) Sample.alice 10 H)
    as [Hpost Hform].
  split.
  - apply Hpost; reflexivity.
  - apply Hform. right. reflexivity.
Defined.

(** ** Logging in after the account is gone *)

Lemma find_filter_all_false {A} (f : A → bool) (P : A → Prop)
    `{∀ x, Decision (P x)} (l : list A) :
  (∀ x, x ∈ l → f x = true → ¬ P x) → List.find f (filter P l) = None.
Proof.
  intros Hl. apply find_all_false. intros x Hx.
  apply list_elem_of_filter in Hx as [HP Hx].
  destruct (f x) eqn:Hf; [|done]. by destruct (Hl x Hx Hf).
Qed.

(** X20.  After a user has deleted their account, the old username logs
    nobody in (no other stored user having that username): whatever password
    is sent, the login handler finds no user and renders the login form
    again, without setting the session key. *)
Theorem delete_user_then_login (check_password_hash : string → string → bool)
    (req next : Request) (w : World) (u : User.t) :
  logged_in_as w u →
  fresh_session w →
  validate_on_submit ForValidationForm req = true →
  (∀ v, v ∈ users (db w) → User.username v = User.username u → User.id v = User.id u) →
  form_username next = User.username u →
  (handle_request (login check_password_hash next)
                  (handle_request (delete_user req) w).2).1
  = Ret (Some (Render "users/login.html" (WithForm LoginForm))) ∧
  session_curr_user
    (handle_request (login check_password_hash next)
                    (handle_request (delete_user req) w).2).2
  = None.
Proof.
  intros Hu Hfresh Hform Hname Hnext. unfold fresh_session in Hfresh.
  rewrite !(handle_request_after _ _ _ (add_user_to_g_logged_in _ _ Hu)).
  unfold delete_user, do_logout, db_session_delete_user, db_session_commit.
  run_monad. rewrite Hform. simpl.
  rewrite unique_violation_subset.
  2:{ simpl. intros x Hx. apply list_elem_of_filter in Hx as [_ Hx].
      by rewrite <- Hfresh. }
  simpl. set (w' := committed _).
  assert (Hauth : User_authenticate check_password_hash (db_session w')
                    (form_username next) (form_password next) = None).
  { unfold User_authenticate. simpl. rewrite find_filter_all_false; [done|].
    intros x Hx Hsame. apply String.eqb_eq in Hsame.
    rewrite Hfresh in Hx. rewrite Hnext in Hsame. specialize (Hname x Hx Hsame). tauto. }
  assert (Hkey : session_curr_user w' = None) by done.
  clearbody w'.
  destruct (add_user_to_g_sets_g w') as [g Hg].
  rewrite !(handle_request_after _ _ _ Hg).
  unfold login. run_monad.
  destruct (validate_on_submit LoginForm next); [|done]. by rewrite Hauth.
Qed.

Lemma delete_user_then_login_witness :
  logged_in_as (Sample.world (Some 2)) Sample.bob ∧
  (handle_request
     (login Sample.check_password_hash
            (mkRequest POST true true "bob" "banana" "" "" "" "" "" None 0))
     (handle_request (delete_user (Sample.post true)) (Sample.world (Some 2))).2).1
  = Ret (Some (Render "users/login.html" (WithForm LoginForm))).
Proof.
  assert (H : logged_in_as (Sample.world (Some 2)) Sample.bob)
    by (exists 2; split; reflexivity).
  split; [exact H|].
  apply (delete_user_then_login Sample.check_password_hash (Sample.post true)
           (mkRequest POST true true "bob" "banana" "" "" "" "" "" None 0)
           (Sample.world (Some 2)) Sample.bob H eq_refl eq_refl).
  - intros v Hv Hsame. simpl in Hv.
    apply elem_of_cons in Hv as [->|Hv]; [discriminate Hsame|].
    by apply list_elem_of_singleton in Hv as ->.
  - reflexivity.
Defined.
